(** * Verification of the nexodus/apex agent's reconciliation core

    A shallow embedding of the Go sources of the agent: the address
    classifiers ([internal/util/ip_utils.go]), the Darwin route helpers
    ([internal/nexodus/utils_darwin.go]), the NAT detector
    ([internal/apex/utils.go]), the exit-node netfilter helpers and origin
    tracker, and the WireGuard deployment pass [DeployWireguardConfig].

    Go values are modelled as follows.
    - [string] is [String.string]; Go's [==] on strings is [String.eqb].
    - [error] is the inductive [error]; the [nil] error is [None].
    - a function returning [(T, error)] returns [T * option error], the
      value being Go's zero value wherever the source returns it.
    - [net.IP] (a byte slice) is [list byte]; the nil slice is [[]].
    - calls that leave the process (commands, sockets, the firewall tool)
      are answered by an environment that the functions take as an argument.
    - logging and debug printing are left out: they return nothing and no
      branch depends on them. *)

From Stdlib Require Import String Ascii Bool DecimalString.
From Stdlib.Strings Require Import Byte.
From stdpp Require Import base list strings.

Local Open Scope string_scope.

(** ** Go errors *)

(** [errorString] is an error made by [errors.New], by [fmt.Errorf] without
    [%w], or by a library; [wrapError pre e] is [fmt.Errorf(pre + "%w", e)]. *)
Inductive error : Type :=
| errorString (msg : string)
| wrapError (pre : string) (err : error).

(** The [Error()] method. *)
Fixpoint Error (e : error) : string :=
  match e with
  | errorString msg => msg
  | wrapError pre err => pre ++ Error err
  end.

(** [errors.Unwrap] iterated to the innermost error. *)
Fixpoint rootCause (e : error) : error :=
  match e with
  | errorString msg => errorString msg
  | wrapError _ err => rootCause err
  end.

(** ** Address classifiers: internal/util/ip_utils.go *)

Module IPUtils.

(** [net.IP]. *)
Definition IP := list byte.

Definition IPv4len : nat := 4.
Definition IPv6len : nat := 16.

Definition isNil (ip : IP) : bool :=
  match ip with
  | [] => true
  | _ :: _ => false
  end.

(** [net.isZeros]. *)
Definition isZeros (p : IP) : bool := forallb (Byte.eqb x00) p.

(** [p[i] == b] for an index inside the slice. *)
Definition byteAt (p : IP) (i : nat) (b : byte) : bool :=
  match p !! i with
  | Some c => Byte.eqb c b
  | None => false
  end.

(** [net.IP.To4]: a 4-byte address is returned as it is, a 16-byte
    IPv4-mapped address gives its last four bytes, anything else (the nil
    address too) gives nil. *)
Definition To4 (ip : IP) : IP :=
  if Nat.eqb (length ip) IPv4len then ip
  else if Nat.eqb (length ip) IPv6len
          && isZeros (take 10 ip)
          && byteAt ip 10 xff
          && byteAt ip 11 xff
       then take 4 (drop 12 ip)
       else [].

Section Classifiers.

  (** The two textual parsers of Go's [net/netip], which [net.ParseIP]
      dispatches to.  An IPv4 result is the 16-byte IPv4-mapped form; an
      IPv6 result carries its zone. *)
Variable parseIPv4 : string -> option IP.
Variable parseIPv6 : string -> option (IP * string).

  (** [netip.ParseAddr]: the first ['.'] sends the whole string to the IPv4
      parser, the first [':'] to the IPv6 parser, a ['%'] met before either
      is an error, and a string with none of them is no address. *)
Fixpoint scanAddr (s rest : string) : option (IP * string) :=
    match rest with
    | EmptyString => None
    | String c rest' =>
        if Ascii.eqb c "."%char then
          match parseIPv4 s with
          | Some ip => Some (ip, "")
          | None => None
          end
        else if Ascii.eqb c ":"%char then parseIPv6 s
        else if Ascii.eqb c "%"%char then None
        else scanAddr s rest'
    end.

Definition ParseAddr (s : string) : option (IP * string) := scanAddr s s.

  (** [net.ParseIP]: nil when the text is not an address or has a zone. *)
Definition ParseIP (s : string) : IP :=
    match ParseAddr s with
    | Some (ip, zone) => if String.eqb zone "" then ip else []
    | None => []
    end.

  (** [IsIPv4Address]: [ip.To4() != nil]. *)
Definition IsIPv4Address (addr : string) : bool :=
    let ip := ParseIP addr in
    negb (isNil (To4 ip)).

  (** [IsIPv6Address]: [ip.To4() == nil]. *)
Definition IsIPv6Address (addr : string) : bool :=
    let ip := ParseIP addr in
    isNil (To4 ip).

End Classifiers.

(** *** Prefixes and masks *)

(** [net.IPMask]: the bytes of a mask, each a number below 256. *)
Definition IPMask := list Z.

(** [net.IPNet], with its fields [IP] and [Mask]. *)
Record IPNet : Type := {
  IPNet_IP : IP;
  IPNet_Mask : IPMask
}.

(** The loop of [net.CIDRMask] over the [l] bytes of the mask, [n] one bits
    being left to write: [0xff] while eight are left, then
    [^byte(0xff >> n)], then zeros. *)
Fixpoint cidrMaskBytes (l : nat) (n : Z) : IPMask :=
  match l with
  | O => []
  | S l' =>
      if (8 <=? n)%Z then 255%Z :: cidrMaskBytes l' (n - 8)%Z
      else Z.lxor 255 (Z.shiftr 255 n) :: cidrMaskBytes l' 0%Z
  end.

(** [net.CIDRMask]: nil unless [bits] is 32 or 128 and [0 <= ones <= bits]. *)
Definition CIDRMask (ones bits : Z) : IPMask :=
  if negb (bits =? 8 * Z.of_nat IPv4len)%Z && negb (bits =? 8 * Z.of_nat IPv6len)%Z
  then []
  else if (ones <? 0)%Z || (bits <? ones)%Z then []
  else cidrMaskBytes (Z.to_nat (bits / 8)) ones.

(** [for v&0x80 != 0 { n++; v <<= 1 }] on a byte [v]: each round drops the
    top bit, so eight rounds are enough. *)
Fixpoint countLeadingOnes (rounds : nat) (v n : Z) : Z * Z :=
  match rounds with
  | O => (v, n)
  | S rounds' =>
      if negb (Z.land v 128 =? 0)%Z
      then countLeadingOnes rounds' (Z.shiftl v 1 mod 256)%Z (n + 1)%Z
      else (v, n)
  end.

(** The loop of [net.simpleMaskLength], [n] bits being counted so far. *)
Fixpoint simpleMaskLengthFrom (mask : IPMask) (n : Z) : Z :=
  match mask with
  | [] => n
  | v :: rest =>
      if (v =? 255)%Z then simpleMaskLengthFrom rest (n + 8)%Z
      else
        let '(v', n') := countLeadingOnes 8 v n in
        if negb (v' =? 0)%Z then (-1)%Z
        else if forallb (Z.eqb 0) rest then n' else (-1)%Z
  end.

(** [net.simpleMaskLength]: the number of leading ones of a mask made of
    ones followed by zeros, [-1] for another mask. *)
Definition simpleMaskLength (mask : IPMask) : Z := simpleMaskLengthFrom mask 0.

(** [net.networkNumberAndMask]. *)
Definition networkNumberAndMask (n : IPNet) : IP * IPMask :=
  let ip := To4 (IPNet_IP n) in
  if isNil ip && negb (Nat.eqb (length (IPNet_IP n)) IPv6len) then ([], [])
  else
    let ip := if isNil ip then IPNet_IP n else ip in
    let m := IPNet_Mask n in
    if Nat.eqb (length m) IPv4len then
      if negb (Nat.eqb (length ip) IPv4len) then ([], []) else (ip, m)
    else if Nat.eqb (length m) IPv6len then
      if Nat.eqb (length ip) IPv4len then (ip, drop 12 m) else (ip, m)
    else ([], []).

(** [strconv.Itoa] and [uitoa]: a number in decimal. *)
Definition itoa (z : Z) : string := NilEmpty.string_of_int (Z.to_int z).

Section Prefixes.

(** The parsers of [net.ParseIP], the texts [net.IP.String] and
    [net.IPMask.String], and [net.ParseCIDR], which returns the address, the
    network and no error, or an error. *)
Variable parseIPv4 : string -> option IP.
Variable parseIPv6 : string -> option (IP * string).
Variable IPString : IP -> string.
Variable IPMaskString : IPMask -> string.
Variable ParseCIDR : string -> (IP * IPNet) + error.

(** [net.IPNet.String]. *)
Definition IPNet_String (n : IPNet) : string :=
  let '(nn, m) := networkNumberAndMask n in
  if isNil nn || match m with [] => true | _ => false end then "<nil>"
  else
    let l := simpleMaskLength m in
    if (l =? -1)%Z then IPString nn ++ "/" ++ IPMaskString m
    else IPString nn ++ "/" ++ itoa l.

(** [IsIPv4Prefix]. *)
Definition IsIPv4Prefix (prefix : string) : bool :=
  match ParseCIDR prefix with
  | inr _ => false
  | inl (_, ipv4Net) => negb (isNil (To4 (IPNet_IP ipv4Net)))
  end.

(** [IsIPv6Prefix]. *)
Definition IsIPv6Prefix (prefix : string) : bool :=
  match ParseCIDR prefix with
  | inr _ => false
  | inl (_, ipv6Net) => isNil (To4 (IPNet_IP ipv6Net))
  end.

(** [AppendPrefixMask]; [maskSize] is a Go [int]. *)
Definition AppendPrefixMask (ipStr : string) (maskSize : Z) : string * option error :=
  let ip := ParseIP parseIPv4 parseIPv6 ipStr in
  if isNil ip then ("", Some (errorString ("invalid IP address: " ++ ipStr)))
  else
    let ipLen := if isNil (To4 ip) then IPv6len else IPv4len in
    if (Z.of_nat ipLen * 8 <? maskSize)%Z
    then ("", Some (errorString ("invalid mask size for IP address "
                                 ++ IPString ip ++ ": " ++ itoa maskSize)))
    else
      let mask := CIDRMask maskSize (Z.of_nat ipLen * 8) in
      let ipNet := {| IPNet_IP := ip; IPNet_Mask := mask |} in
      (IPNet_String ipNet, None).

End Prefixes.

End IPUtils.

(** ** Darwin route helpers: internal/nexodus/utils_darwin.go *)

Module Darwin.

(** [RouteExistsOS]: the argument is not looked at. *)
Definition RouteExistsOS (s : string) : bool * option error :=
  (false, None).

Section Routes.

  (** The state of the host the commands act on, and the package's
      [RunCommand], which runs a command line there and returns its output
      and error. *)
Variable Host : Type.
Variable RunCommand : Host -> list string -> Host * (string * option error).

  (** [AddRoute]. *)
Definition AddRoute (h : Host) (prefix dev : string) : Host * option error :=
    let '(h', (_, err)) :=
      RunCommand h ["route"; "-q"; "-n"; "add"; "-inet"; prefix; "-interface"; dev] in
    match err with
    | Some e => (h', Some (wrapError "v4 route add failed: " e))
    | None => (h', None)
    end.

  (** [AddRouteV6]. *)
Definition AddRouteV6 (h : Host) (prefix dev : string) : Host * option error :=
    let '(h', (_, err)) :=
      RunCommand h ["route"; "-q"; "-n"; "add"; "-inet6"; prefix; "-interface"; dev] in
    match err with
    | Some e => (h', Some (wrapError "v6 route add failed: " e))
    | None => (h', None)
    end.

  (** [DeleteRoute]. *)
Definition DeleteRoute (h : Host) (prefix dev : string) : Host * option error :=
    let '(h', (_, err)) :=
      RunCommand h ["route"; "-q"; "-n"; "delete"; "-inet"; prefix; "-interface"; dev] in
    match err with
    | Some e => (h', Some (wrapError "no route deleted: " e))
    | None => (h', None)
    end.

End Routes.

(** [strings.Contains]: [substr] starts at some position of [s]. *)
Fixpoint Contains (s substr : string) : bool :=
  if String.prefix substr s then true
  else
    match s with
    | EmptyString => false
    | String _ rest => Contains rest substr
    end.

Section Links.

(** The host, the package's [RunCommand] on it, and the two netlink calls:
    [netlink.LinkByName], which returns a link or an error, and
    [netlink.LinkDel]. *)
Variable Host : Type.
Variable Link : Type.
Variable RunCommand : Host -> list string -> Host * (string * option error).
Variable LinkByName : Host -> string -> Link + error.
Variable LinkDel : Host -> Link -> Host * option error.

(** [linkExists]. *)
Definition linkExists (h : Host) (ifaceName : string) : bool :=
  match LinkByName h ifaceName with
  | inr _ => false
  | inl _ => true
  end.

(** [delLink]. *)
Definition delLink (h : Host) (ifaceName : string) : Host * option error :=
  match LinkByName h ifaceName with
  | inl link =>
      let '(h', err) := LinkDel h link in
      match err with
      | Some e => (h', Some e)
      | None => (h', None)
      end
  | inr _ => (h, None)
  end.

(** [isIPv6Supported]. *)
Definition isIPv6Supported (h : Host) : Host * bool :=
  let '(h', (res, err)) := RunCommand h ["ifconfig"] in
  match err with
  | Some _ => (h', true)
  | None => if negb (Contains res "inet6") then (h', false) else (h', true)
  end.

End Links.

End Darwin.

(** ** NAT detector: internal/apex/utils.go *)

Module Apex.

Import IPUtils.

(** [OperatingSystem] and its three constants. *)
Definition OperatingSystem := string.

Definition Linux : OperatingSystem := "Linux".
Definition Darwin : OperatingSystem := "Darwin".
Definition Windows : OperatingSystem := "Windows".

(** [OperatingSystem.String]. *)
Definition OperatingSystem_String (operatingSystem : OperatingSystem) : string :=
  if String.eqb operatingSystem Linux then "linux"
  else if String.eqb operatingSystem Darwin then "darwin"
  else if String.eqb operatingSystem Windows then "windows"
  else "unsupported".

(** [strings.Split(s, ":")[0]]: the text before the first colon. *)
Fixpoint beforeColon (s : string) : string :=
  match s with
  | EmptyString => EmptyString
  | String c rest =>
      if Ascii.eqb c ":"%char then EmptyString else String c (beforeColon rest)
  end.

(** What the STUN client hands to the callback of [c.Do]: the event's
    [Error], and what [XORMappedAddress.GetFrom] reads in its message
    ([None] when the attribute cannot be decoded). *)
Record StunEvent : Type := {
  evError : option error;
  evXorMappedAddress : option IP
}.

(** The network as the detector meets it in one invocation. *)
Record Network : Type := {
  (** [net.Dial("udp", socket)] followed by [conn.LocalAddr()]: an error, or
      the text of the local UDP address ([None] for a nil address). *)
  dialUDP : string -> option string * option error;
  (** [discoverLinuxAddress(logger, family)]. *)
  linuxAddress : nat -> IP * option error;
  (** [stun.Dial("udp4", "stun.l.google.com:19302")]. *)
  stunDial : option error;
  (** The event the callback of [c.Do] is called with, if it is called. *)
  stunEvent : option StunEvent;
  (** The error [c.Do] returns. *)
  stunDo : option error
}.

Section Detector.

(** [net.IP.String]. *)
Variable IPString : IP -> string.

(** [discoverGenericIPv4]. *)
Definition discoverGenericIPv4 (n : Network) (controller port : string)
  : string * option error :=
  let controllerSocket := controller ++ ":" ++ port in
  match dialUDP n controllerSocket with
  | (_, Some err) => ("", Some err)
  | (Some ipAddress, None) => (beforeColon ipAddress, None)
  | (None, None) => ("", Some (errorString "failed to obtain the local IP"))
  end.

(** The callback given to [c.Do] in [GetPubIPv4]: the new value of
    [ourIP]. *)
Definition stunCallback (ourIP : string) (res : StunEvent) : string :=
  match evError res with
  | Some _ => ourIP
  | None =>
      match evXorMappedAddress res with
      | None => ourIP
      | Some ip => IPString ip
      end
  end.

(** [GetPubIPv4]. *)
Definition GetPubIPv4 (n : Network) : string * option error :=
  match stunDial n with
  | Some err => ("", Some err)
  | None =>
      let ourIP := "" in
      let ourIP :=
        match stunEvent n with
        | Some res => stunCallback ourIP res
        | None => ourIP
        end in
      match stunDo n with
      | Some err => ("", Some err)
      | None => (ourIP, None)
      end
  end.

(** [IsNAT].  Each of the three tests on [nodeOS] either leaves [hostIP] as
    it is, sets it, or returns. *)
Definition IsNAT (n : Network) (nodeOS controller port : string)
  : bool * option error :=
  let hostIP := "" in
  match (if String.eqb nodeOS (OperatingSystem_String Darwin)
         then discoverGenericIPv4 n controller port
         else (hostIP, None)) with
  | (_, Some err) => (false, Some err)
  | (hostIP, None) =>
  match (if String.eqb nodeOS (OperatingSystem_String Windows)
         then discoverGenericIPv4 n controller port
         else (hostIP, None)) with
  | (_, Some err) => (false, Some err)
  | (hostIP, None) =>
  match (if String.eqb nodeOS (OperatingSystem_String Linux)
         then let '(linuxIP, err) := linuxAddress n 4 in (IPString linuxIP, err)
         else (hostIP, None)) with
  | (_, Some err) => (false, Some err)
  | (hostIP, None) =>
  match GetPubIPv4 n with
  | (_, Some err) => (false, Some err)
  | (pubIP, None) =>
      if negb (String.eqb hostIP pubIP) then (true, None) else (false, None)
  end end end end.

(** The premise that the local host address is obtained without error and
    is [hostIP]: which discovery runs is decided by [nodeOS], and a node of
    another platform keeps the empty address. *)
Definition hostAddressIs (n : Network) (nodeOS controller port hostIP : string) : Prop :=
  (nodeOS = "darwin" \/ nodeOS = "windows" ->
     discoverGenericIPv4 n controller port = (hostIP, None))
  /\ (nodeOS = "linux" ->
        snd (linuxAddress n 4) = None /\ hostIP = IPString (fst (linuxAddress n 4)))
  /\ (nodeOS <> "darwin" -> nodeOS <> "windows" -> nodeOS <> "linux" -> hostIP = "").

(** The STUN probe fails: the dial fails, the transaction returns an error,
    or the event given to the callback carries one (a timeout does). *)
Definition stunProbeFails (n : Network) : Prop :=
  stunDial n <> None
  \/ stunDo n <> None
  \/ exists res, stunEvent n = Some res /\ evError res <> None.

End Detector.

(** *** Validation *)

Section Validation.

Variable parseIPv4 : string -> option IP.
Variable parseIPv6 : string -> option (IP * string).
Variable ParseCIDR : string -> (IP * IPNet) + error.

(** [ValidateIp]; the text in the message is the argument. *)
Definition ValidateIp (ip : string) : option error :=
  if negb (isNil (ParseIP parseIPv4 parseIPv6 ip)) then None
  else Some (errorString (ip ++ " is not a valid v4 or v6 IP")).

(** [ValidateCIDR]; the text in the message is the parse error. *)
Definition ValidateCIDR (cidr : string) : option error :=
  match ParseCIDR cidr with
  | inr err => Some (errorString (Error err ++ " is not a valid v4 or v6 IP prefix"))
  | inl _ => None
  end.

End Validation.

(** *** Files *)

Section Files.

(** The file system, [os.Stat] (its error), [errors.Is(err, os.ErrNotExist)]
    and [os.MkdirAll(path, os.ModePerm)]. *)
Variable FS : Type.
Variable Stat : FS -> string -> option error.
Variable IsNotExist : error -> bool.
Variable MkdirAll : FS -> string -> FS * option error.

(** [CreateDirectory]. *)
Definition CreateDirectory (fs : FS) (path : string) : FS * option error :=
  match Stat fs path with
  | Some err =>
      if IsNotExist err then
        let '(fs', err') := MkdirAll fs path in
        match err' with
        | Some e =>
            (fs', Some (errorString ("failed to create the directory " ++ path
                                     ++ ": " ++ Error e)))
        | None => (fs', None)
        end
      else (fs, None)
  | None => (fs, None)
  end.

(** [FileExists]. *)
Definition FileExists (fs : FS) (f : string) : bool :=
  match Stat fs f with
  | Some _ => false
  | None => true
  end.

End Files.

(** *** Interfaces of the host *)

(** A [net.Addr] of an interface: its text, and the [*net.IPNet] it is when
    that is its dynamic type. *)
Record Addr : Type := {
  Addr_String : string;
  Addr_IPNet : option IPNet
}.

(** A [net.Interface]: its name and what [Addrs()] returns. *)
Record Interface : Type := {
  Name : string;
  Addrs : list Addr * option error
}.

(** [net.IP.DefaultMask]: the class mask of an address with an IPv4 form,
    nil for another address. *)
Definition DefaultMask (ip : IP) : IPMask :=
  match To4 ip with
  | [] => []
  | b :: _ =>
      if (Byte.to_N b <? 128)%N then [255; 0; 0; 0]%Z
      else if (Byte.to_N b <? 192)%N then [255; 255; 0; 0]%Z
      else [255; 255; 255; 0]%Z
  end.

Definition isNilMask (m : IPMask) : bool :=
  match m with
  | [] => true
  | _ :: _ => false
  end.

(** The inner loop of [getIPv4Iface]: the address it returns, if it
    returns. *)
Fixpoint rangeAddrsIPv4 (addrs : list Addr) : option IP :=
  match addrs with
  | [] => None
  | addr :: rest =>
      match Addr_IPNet addr with
      | Some ip =>
          if negb (isNilMask (DefaultMask (IPNet_IP ip))) then Some (IPNet_IP ip)
          else rangeAddrsIPv4 rest
      | None => rangeAddrsIPv4 rest
      end
  end.

(** The outer loop of [getIPv4Iface]. *)
Fixpoint rangeInterfacesIPv4 (interfaces : list Interface) (ifname : string)
  : option IP :=
  match interfaces with
  | [] => None
  | inter :: rest =>
      if String.eqb (Name inter) ifname then
        match Addrs inter with
        | (addrs, None) =>
            match rangeAddrsIPv4 addrs with
            | Some ip => Some ip
            | None => rangeInterfacesIPv4 rest ifname
            end
        | (_, Some _) => rangeInterfacesIPv4 rest ifname
        end
      else rangeInterfacesIPv4 rest ifname
  end.

Section Interfaces.

(** The host, [net.Interfaces()] and [net.InterfaceByName] (its error) on
    it, [net.ParseCIDR], [net.IP.Equal] and [net.IP.String]. *)
Variable Host : Type.
Variable net_Interfaces : Host -> list Interface * option error.
Variable net_InterfaceByName : Host -> string -> option error.
Variable ParseCIDR : string -> (IP * IPNet) + error.
Variable IPEqual : IP -> IP -> bool.
Variable IPString : IP -> string.

(** [getIPv4Iface]; the error of [net.Interfaces()] is dropped. *)
Definition getIPv4Iface (h : Host) (ifname : string) : IP :=
  let interfaces := fst (net_Interfaces h) in
  match rangeInterfacesIPv4 interfaces ifname with
  | Some ip => ip
  | None => []
  end.

(** [ifaceExists]. *)
Definition ifaceExists (h : Host) (iface : string) : bool :=
  match net_InterfaceByName h iface with
  | Some _ => false
  | None => true
  end.

(** The inner loop of [getInterfaceByIP]: whether it returns. *)
Fixpoint rangeAddrsEqual (addrs : list Addr) (ip : IP) : bool :=
  match addrs with
  | [] => false
  | addr :: rest =>
      match ParseCIDR (Addr_String addr) with
      | inl (ifaceIP, _) =>
          if IPEqual ifaceIP ip then true else rangeAddrsEqual rest ip
      | inr _ => rangeAddrsEqual rest ip
      end
  end.

(** The outer loop of [getInterfaceByIP]: the name it returns, if it
    returns. *)
Fixpoint rangeInterfacesEqual (interfaces : list Interface) (ip : IP)
  : option string :=
  match interfaces with
  | [] => None
  | iface :: rest =>
      match Addrs iface with
      | (addrs, None) =>
          if rangeAddrsEqual addrs ip then Some (Name iface)
          else rangeInterfacesEqual rest ip
      | (_, Some _) => rangeInterfacesEqual rest ip
      end
  end.

(** [getInterfaceByIP]. *)
Definition getInterfaceByIP (h : Host) (ip : IP) : string * option error :=
  match net_Interfaces h with
  | (_, Some err) => ("", Some err)
  | (interfaces, None) =>
      match rangeInterfacesEqual interfaces ip with
      | Some name => (name, None)
      | None =>
          ("", Some (errorString ("no interface was found for the ip " ++ IPString ip)))
      end
  end.

(** An interface owns [ip]: its addresses are listed without error and the
    text of one of them parses to an address equal to [ip]. *)
Definition ownsAddress (iface : Interface) (ip : IP) : Prop :=
  exists addrs addr ifaceIP ipNet,
    Addrs iface = (addrs, None)
    /\ In addr addrs
    /\ ParseCIDR (Addr_String addr) = inl (ifaceIP, ipNet)
    /\ IPEqual ifaceIP ip = true.

(** *** Commands *)

(** [exec.Command(name, args...).CombinedOutput()] on the host, the verb
    [%q] of [fmt], and the constants of the package the commands name. *)
Variable exec : Host -> string -> list string -> Host * (string * option error).
Variable Quote : string -> string.
Variable wgIface : string.
Variable darwinIface : string.
Variable darwinPrivateKeyFile : string.
Variable linuxPrivateKeyFile : string.
Variable WgDefaultPort : Z.

(** [RunCommand].  The variadic [cmd] is given as its first word and the
    others: every call of the package has a first word, and Go panics on a
    call without one. *)
Definition RunCommand (h : Host) (cmd0 : string) (cmd1 : list string)
  : Host * (string * option error) :=
  let '(h', (output, err)) := exec h cmd0 cmd1 in
  match err with
  | Some e =>
      (h', ("", Some (errorString
                        ("failed to run " ++ Quote (String.concat " " (cmd0 :: cmd1))
                         ++ ": " ++ Error e ++ " (" ++ output ++ ")"))))
  | None => (h', (output, None))
  end.

(** [setupDarwinIface]: the error of each command is logged and dropped. *)
Definition setupDarwinIface (h : Host) (localAddress : string) : Host * option error :=
  let '(h, _) := RunCommand h "wireguard-go" [darwinIface] in
  let '(h, _) :=
    RunCommand h "ifconfig" [darwinIface; "inet"; localAddress; localAddress; "alias"] in
  let '(h, _) := RunCommand h "ifconfig" [darwinIface; "up"] in
  let '(h, _) :=
    RunCommand h "wg" ["set"; darwinIface; "private-key"; darwinPrivateKeyFile] in
  (h, None).

(** The fields of the receiver [*Apex] that [setupLinuxInterface] reads. *)
Record Apex : Type := {
  hubRouter : bool;
  listenPort : Z;
  wgLocalAddress : string
}.

(** [setupLinuxInterface]. *)
Definition setupLinuxInterface (ax : Apex) (h : Host) : Host :=
  let h :=
    if ifaceExists h wgIface
    then fst (RunCommand h "ip" ["link"; "del"; wgIface])
    else h in
  let '(h, _) := RunCommand h "ip" ["link"; "add"; wgIface; "type"; "wireguard"] in
  let '(h, _) :=
    if hubRouter ax
    then RunCommand h "wg" ["set"; wgIface; "listen-port"; itoa WgDefaultPort;
                            "private-key"; linuxPrivateKeyFile]
    else RunCommand h "wg" ["set"; wgIface; "listen-port"; itoa (listenPort ax);
                            "private-key"; linuxPrivateKeyFile] in
  let '(h, (_, err)) :=
    RunCommand h "ip" ["address"; "add"; wgLocalAddress ax; "dev"; wgIface] in
  let h :=
    match err with
    | Some _ =>
        let wgIP := getIPv4Iface h wgIface in
        let '(h, _) :=
          RunCommand h "ip" ["address"; "del"; IPString (To4 wgIP); "dev"; wgIface] in
        let '(h, _) :=
          RunCommand h "ip" ["address"; "add"; wgLocalAddress ax; "dev"; wgIface] in
        h
    | None => h
    end in
  let '(h, _) := RunCommand h "ip" ["link"; "set"; wgIface; "up"] in
  h.

End Interfaces.

(** A command runner that also keeps the list of the command lines it was
    given, each with the error it ended with. *)
Definition CommandLog : Type := list (list string * option error).

Definition recordingExec {Host : Type}
  (exec : Host -> string -> list string -> Host * (string * option error))
  (st : CommandLog * Host) (name : string) (args : list string)
  : (CommandLog * Host) * (string * option error) :=
  let '(h', (out, err)) := exec (snd st) name args in
  (((fst st ++ [(name :: args, err)])%list, h'), (out, err)).

End Apex.

(** ** The agent: package nexodus *)

Module Nexodus.

(** Modelled from the spec: the declaration of the struct [wgPeerConfig] is
    not among the source files; the fields are those of the data model's
    PeerConfig, of which the code reads [PublicKey] and [Endpoint]. *)
Record wgPeerConfig : Type := {
  PublicKey : string;
  Endpoint : string;
  AllowedIPs : list string;
  PersistentKeepAlive : string
}.

Module public.

(** Modelled from the spec: [public.ModelsDevice] is declared in the
    generated API client, which is not among the source files; the fields
    are those of a peer record of the topology input, with the device's
    [Id]. *)
Record ModelsDevice : Type := {
  Id : string;
  PublicKey : string;
  Endpoint : string;
  AllowedIps : list string;
  Relay : bool
}.

End public.

(** The exit-node part of the agent's state. *)
Record exitNode : Type := {
  exitNodeExists : bool;
  exitNodeOrigins : list wgPeerConfig
}.

(** The fields of the receiver [*Nexodus] that the modelled methods use;
    [wgConfig_Peers] is [ax.wgConfig.Peers]. *)
Record Nexodus : Type := {
  wgConfig_Peers : list wgPeerConfig;
  TunnelIP : string;
  tunnelIface : string;
  securityGroup_Id : string;
  wireguardPubKey : string;
  userspaceMode : bool;
  exitNodeState : exitNode
}.

(** *** Routes and tunnels: the deployment pass *)

(** The methods [DeployWireguardConfig] calls whose bodies are not among the
    source files.  A call to one of them is recorded, in order. *)
Inductive Call : Type :=
| setupInterface
| processSecurityGroupRules
| handlePeerRouteUS (wgPeerConfig : wgPeerConfig)
| handlePeerRouteOS (wgPeerConfig : wgPeerConfig)
| handlePeerTunnel (wgPeerConfig : wgPeerConfig).

(** A computation that makes calls and returns a value. *)
Definition Act (A : Type) : Type := list Call * A.

Definition ret {A : Type} (a : A) : Act A := ([], a).

Definition bind {A B : Type} (m : Act A) (f : A -> Act B) : Act B :=
  let '(t1, a) := m in
  let '(t2, b) := f a in
  ((t1 ++ t2)%list, b).

Definition call {A : Type} (c : Call) (a : A) : Act A := ([c], a).

Notation "x <- m ;; k" := (bind m (fun x => k))
  (at level 100, m at next level, right associativity).
Notation "m ;;; k" := (bind m (fun _ => k))
  (at level 100, right associativity).

(** [for _, x := range l { body x }]. *)
Fixpoint forRange {A : Type} (l : list A) (body : A -> Act unit) : Act unit :=
  match l with
  | [] => ret tt
  | x :: rest => body x ;;; forRange rest body
  end.

(** What one pass finds on the host: the platform, the address text of each
    interface ([ax.getIPv4Iface(name).String()]), and the errors the
    interface setup and the security-group step end with. *)
Record Host : Type := {
  GOOS : string;
  getIPv4Iface_String : string -> string;
  setupInterface_err : option error;
  processSecurityGroupRules_err : option error
}.

(** [handlePeerRoute]. *)
Definition handlePeerRoute (ax : Nexodus) (wgPeerConfig : wgPeerConfig) : Act unit :=
  if userspaceMode ax
  then call (handlePeerRouteUS wgPeerConfig) tt
  else call (handlePeerRouteOS wgPeerConfig) tt.

(** [DeployWireguardConfig].  [cfg] is a copy of [ax.wgConfig] taken on
    entry; [Linux.String()] is the method of [OperatingSystem], as in
    internal/apex/utils.go. *)
Definition DeployWireguardConfig (h : Host) (ax : Nexodus)
  (newPeers : list public.ModelsDevice) (firstTime : bool) : Act (option error) :=
  let cfg_Peers := wgConfig_Peers ax in
  err <- (if negb (String.eqb (TunnelIP ax) (getIPv4Iface_String h (tunnelIface ax)))
          then call setupInterface (setupInterface_err h)
          else ret None) ;;
  match err with
  | Some e => ret (Some e)
  | None =>
  err <- (if negb (String.eqb (securityGroup_Id ax) "")
             && String.eqb (GOOS h) (Apex.OperatingSystem_String Apex.Linux)
          then call processSecurityGroupRules (processSecurityGroupRules_err h)
          else ret None) ;;
  match err with
  | Some e => ret (Some e)
  | None =>
  if firstTime then
    forRange cfg_Peers (fun peer =>
      handlePeerRoute ax peer ;;;
      call (handlePeerTunnel peer) tt) ;;;
    ret None
  else
    forRange newPeers (fun newPeer =>
      if negb (String.eqb (public.Id newPeer) "") then
        forRange cfg_Peers (fun peer =>
          if String.eqb (PublicKey peer) (public.PublicKey newPeer)
             && negb (String.eqb (public.PublicKey newPeer) (wireguardPubKey ax))
          then handlePeerRoute ax peer ;;;
               call (handlePeerTunnel peer) tt
          else ret tt)
      else ret tt) ;;;
    ret None
  end end.

(** The peer a call installs a route or a tunnel for. *)
Definition installedPeer (c : Call) : option wgPeerConfig :=
  match c with
  | handlePeerRouteUS p | handlePeerRouteOS p | handlePeerTunnel p => Some p
  | setupInterface | processSecurityGroupRules => None
  end.

Definition isRouteCall (c : Call) : bool :=
  match c with
  | handlePeerRouteUS _ | handlePeerRouteOS _ => true
  | _ => false
  end.

(** The calls made, and the value returned. *)
Definition trace {A : Type} (m : Act A) : list Call := fst m.
Definition result {A : Type} (m : Act A) : A := snd m.

(** The two calls that install one peer: its route, then its tunnel. *)
Definition installPeer (ax : Nexodus) (peer : wgPeerConfig) : list Call :=
  [if userspaceMode ax then handlePeerRouteUS peer else handlePeerRouteOS peer;
   handlePeerTunnel peer].

(** The interface step does not fail: either the tunnel address matches the
    live interface and nothing is set up, or the setup returns nil. *)
Definition interfaceStepSucceeds (h : Host) (ax : Nexodus) : Prop :=
  TunnelIP ax <> getIPv4Iface_String h (tunnelIface ax) -> setupInterface_err h = None.

(** The security-group step does not fail: either it is not run, or it
    returns nil. *)
Definition securityGroupStepSucceeds (h : Host) (ax : Nexodus) : Prop :=
  securityGroup_Id ax <> "" -> GOOS h = "linux" -> processSecurityGroupRules_err h = None.

(** *** Exit-node origin tracker *)

(** [peer.Endpoint = endpoint] on a copy of [peer]. *)
Definition setEndpoint (endpoint : string) (peer : wgPeerConfig) : wgPeerConfig :=
  {| PublicKey := PublicKey peer;
     Endpoint := endpoint;
     AllowedIPs := AllowedIPs peer;
     PersistentKeepAlive := PersistentKeepAlive peer |}.

(** The loop of [updateExitNodeOrigins] over [nx.exitNode.exitNodeOrigins]:
    the slice after the loop and the flag [found].  The first entry with the
    key of [newPeer] gets its endpoint and ends the loop. *)
Fixpoint rangeExitNodeOrigins (origins : list wgPeerConfig) (newPeer : wgPeerConfig)
  : list wgPeerConfig * bool :=
  match origins with
  | [] => ([], false)
  | existingPeerConfig :: rest =>
      if String.eqb (PublicKey existingPeerConfig) (PublicKey newPeer)
      then (setEndpoint (Endpoint newPeer) existingPeerConfig :: rest, true)
      else
        let '(rest', found) := rangeExitNodeOrigins rest newPeer in
        (existingPeerConfig :: rest', found)
  end.

(** [updateExitNodeOrigins]. *)
Definition updateExitNodeOrigins (nx : Nexodus) (newPeer : wgPeerConfig) : Nexodus :=
  let '(origins, found) :=
    rangeExitNodeOrigins (exitNodeOrigins (exitNodeState nx)) newPeer in
  let origins := if negb found then (origins ++ [newPeer])%list else origins in
  {| wgConfig_Peers := wgConfig_Peers nx;
     TunnelIP := TunnelIP nx;
     tunnelIface := tunnelIface nx;
     securityGroup_Id := securityGroup_Id nx;
     wireguardPubKey := wireguardPubKey nx;
     userspaceMode := userspaceMode nx;
     exitNodeState := {| exitNodeExists := true; exitNodeOrigins := origins |} |}.

(** The origin slice that [updateExitNodeOrigins] leaves: the result of the
    loop, with [newPeer] appended when nothing was found. *)
Definition updatedOrigins (origins : list wgPeerConfig) (newPeer : wgPeerConfig)
  : list wgPeerConfig :=
  let '(l, found) := rangeExitNodeOrigins origins newPeer in
  if negb found then (l ++ [newPeer])%list else l.


(** *** Exit-node NAT manager *)

Section ExitNode.

(** The state of the host's netfilter, and [policyCmd], which runs the
    firewall tool with the given arguments; constants of the package that the
    helpers name. *)
Variable Firewall : Type.
Variable policyCmd : Firewall -> list string -> Firewall * (string * option error).
Variable nfExitNodeTable : string.
Variable wgIface : string.

(** [if _, err := policyCmd(logger, args); err != nil { return
    fmt.Errorf(pre + "%w", err) }; return nil]. *)
Definition policyStep (fw : Firewall) (args : list string) (pre : string)
  : Firewall * option error :=
  let '(fw', (_, err)) := policyCmd fw args in
  match err with
  | Some e => (fw', Some (wrapError pre e))
  | None => (fw', None)
  end.

Definition tableCmd : list string :=
  ["add"; "table"; "inet"; nfExitNodeTable].

Definition preroutingChainCmd : list string :=
  ["add"; "chain"; "inet"; nfExitNodeTable; "prerouting";
   "{"; "type"; "nat"; "hook"; "prerouting"; "priority"; "dstnat"; ";"; "}"].

Definition postroutingChainCmd : list string :=
  ["add"; "chain"; "inet"; nfExitNodeTable; "postrouting";
   "{"; "type"; "nat"; "hook"; "postrouting"; "priority"; "srcnat"; ";"; "}"].

Definition forwardChainCmd : list string :=
  ["add"; "chain"; "inet"; nfExitNodeTable; "forward";
   "{"; "type"; "filter"; "hook"; "forward"; "priority"; "filter"; ";"; "}"].

Definition postroutingRuleCmd (phyIface : string) : list string :=
  ["add"; "rule"; "inet"; nfExitNodeTable; "postrouting"; "oifname"; phyIface; "masquerade"].

Definition forwardRuleCmd : list string :=
  ["add"; "rule"; "inet"; nfExitNodeTable; "forward"; "iifname"; wgIface; "accept"].

(** [addExitDestinationTable]. *)
Definition addExitDestinationTable (fw : Firewall) : Firewall * option error :=
  policyStep fw tableCmd
    ("failed to add nftables table " ++ nfExitNodeTable ++ ": ").

(** [addExitOriginPreroutingChain]. *)
Definition addExitOriginPreroutingChain (fw : Firewall) : Firewall * option error :=
  policyStep fw preroutingChainCmd "failed to add nftables chain nexodus-exit-node: ".

(** [addExitOriginPostroutingChain]. *)
Definition addExitOriginPostroutingChain (fw : Firewall) : Firewall * option error :=
  policyStep fw postroutingChainCmd "failed to add nftables chain nexodus-exit-node: ".

(** [addExitOriginForwardChain]. *)
Definition addExitOriginForwardChain (fw : Firewall) : Firewall * option error :=
  policyStep fw forwardChainCmd "failed to add nftables chain nexodus-exit-node: ".

(** [addExitOriginPostroutingRule]. *)
Definition addExitOriginPostroutingRule (fw : Firewall) (phyIface : string)
  : Firewall * option error :=
  policyStep fw (postroutingRuleCmd phyIface) "failed to add nftables rule nexodus-exit-node: ".

(** [addExitOriginForwardRule]. *)
Definition addExitOriginForwardRule (fw : Firewall) : Firewall * option error :=
  policyStep fw forwardRuleCmd "failed to add nftables rule nexodus-exit-node: ".

(** [if err := step(); err != nil { return err }] followed by [rest]. *)
Definition andThen (step : Firewall -> Firewall * option error)
  (rest : Firewall -> Firewall * option error) (fw : Firewall)
  : Firewall * option error :=
  let '(fw', err) := step fw in
  match err with
  | Some e => (fw', Some e)
  | None => rest fw'
  end.

(** Modelled from the spec: the routine of the Exit-Node NAT Manager that
    runs the six helpers is not among the source files.  It follows the
    sequence of the component design: table, prerouting chain, postrouting
    chain, forward chain, postrouting masquerade rule, forward-accept rule,
    each step returning at once when it fails. *)
Definition exitNodeNATSetup (phyIface : string) (fw : Firewall)
  : Firewall * option error :=
  andThen addExitDestinationTable
  (andThen addExitOriginPreroutingChain
  (andThen addExitOriginPostroutingChain
  (andThen addExitOriginForwardChain
  (andThen (fun fw => addExitOriginPostroutingRule fw phyIface)
  addExitOriginForwardRule)))) fw.

(** The six commands of the setup, in the order of the component design. *)
Definition setupPlan (phyIface : string) : list (list string) :=
  [tableCmd; preroutingChainCmd; postroutingChainCmd; forwardChainCmd;
   postroutingRuleCmd phyIface; forwardRuleCmd].

End ExitNode.

(** A firewall tool that also keeps the list of the commands it was given,
    each with the error it ended with. *)
Definition Journal : Type := list (list string * option error).

Definition recording {Firewall : Type}
  (policyCmd : Firewall -> list string -> Firewall * (string * option error))
  (st : Journal * Firewall) (args : list string)
  : (Journal * Firewall) * (string * option error) :=
  let '(fw', (out, err)) := policyCmd (snd st) args in
  (((fst st ++ [(args, err)])%list, fw'), (out, err)).

(** The kind of object an [add] command creates, and the chain a rule
    belongs to. *)
Definition isAddTable (args : list string) : bool :=
  match args with
  | "add" :: "table" :: _ => true
  | _ => false
  end.

Definition addedChain (args : list string) : option string :=
  match args with
  | "add" :: "chain" :: _ :: _ :: chain :: _ => Some chain
  | _ => None
  end.

Definition ruleChain (args : list string) : option string :=
  match args with
  | "add" :: "rule" :: _ :: _ :: chain :: _ => Some chain
  | _ => None
  end.

(** [tableExists j]: a table was added with success in the journal [j];
    [chainExists c j]: the chain [c] was. *)
Definition tableExists (j : Journal) : Prop :=
  exists args, (args, None) ∈ j /\ isAddTable args = true.

Definition chainExists (chain : string) (j : Journal) : Prop :=
  exists args, (args, None) ∈ j /\ addedChain args = Some chain.


End Nexodus.

(** ** Concrete hosts and networks used by the examples *)

Module Scenarios.

Import IPUtils.

(** [net.IP.String] for the addresses of the examples: the nil address is
    "<nil>", an address with an IPv4 form is written in dotted decimal; the
    IPv6 notation is not needed here and is left as "?". *)
Definition decimal (b : byte) : string :=
  NilEmpty.string_of_uint (Nat.to_uint (Byte.to_nat b)).

Definition ipText (ip : IP) : string :=
  match ip with
  | [] => "<nil>"
  | _ =>
      match To4 ip with
      | [a; b; c; d] =>
          decimal a ++ "." ++ decimal b ++ "." ++ decimal c ++ "." ++ decimal d
      | _ => "?"
      end
  end.

(** A Linux node at 192.0.2.10 whose STUN dial times out. *)
Definition stunUnreachable : Apex.Network :=
  {| Apex.dialUDP := fun _ => (Some "192.0.2.10:41641", None);
     Apex.linuxAddress := fun _ => ([x00; x00; x00; x00; x00; x00; x00; x00; x00; x00; xff; xff; xc0; x00; x02; x0a], None);
     Apex.stunDial := Some (errorString "dial udp4: i/o timeout");
     Apex.stunEvent := None;
     Apex.stunDo := None |}.

(** The same node when the STUN server answers that it sees the node at
    the address [mapped]. *)
Definition stunAnswers (mapped : IP) : Apex.Network :=
  {| Apex.dialUDP := fun _ => (Some "192.0.2.10:41641", None);
     Apex.linuxAddress := fun _ => ([x00; x00; x00; x00; x00; x00; x00; x00; x00; x00; xff; xff; xc0; x00; x02; x0a], None);
     Apex.stunDial := None;
     Apex.stunEvent := Some {| Apex.evError := None; Apex.evXorMappedAddress := Some mapped |};
     Apex.stunDo := None |}.

(** The same node when the transaction times out: the callback gets the
    error and [c.Do] returns nil. *)
Definition stunTimesOut : Apex.Network :=
  {| Apex.dialUDP := fun _ => (Some "192.0.2.10:41641", None);
     Apex.linuxAddress := fun _ => ([x00; x00; x00; x00; x00; x00; x00; x00; x00; x00; xff; xff; xc0; x00; x02; x0a], None);
     Apex.stunDial := None;
     Apex.stunEvent := Some {| Apex.evError := Some (errorString "transaction is timed out");
                               Apex.evXorMappedAddress := None |};
     Apex.stunDo := None |}.

(** A node whose cached WireGuard configuration holds a peer with the node's
    own public key, beside another peer; the tunnel address matches the
    live interface and no security group is assigned. *)
Definition ownPeer : Nexodus.wgPeerConfig :=
  {| Nexodus.PublicKey := "local-key";
     Nexodus.Endpoint := "198.51.100.1:51820";
     Nexodus.AllowedIPs := ["100.64.0.1/32"];
     Nexodus.PersistentKeepAlive := "0" |}.

Definition peerA : Nexodus.wgPeerConfig :=
  {| Nexodus.PublicKey := "pubkeyA";
     Nexodus.Endpoint := "10.0.0.2:51820";
     Nexodus.AllowedIPs := ["100.64.0.2/32"];
     Nexodus.PersistentKeepAlive := "0" |}.

Definition node (peers : list Nexodus.wgPeerConfig) (group : string) : Nexodus.Nexodus :=
  {| Nexodus.wgConfig_Peers := peers;
     Nexodus.TunnelIP := "100.64.0.1";
     Nexodus.tunnelIface := "wg0";
     Nexodus.securityGroup_Id := group;
     Nexodus.wireguardPubKey := "local-key";
     Nexodus.userspaceMode := false;
     Nexodus.exitNodeState :=
       {| Nexodus.exitNodeExists := false; Nexodus.exitNodeOrigins := [] |} |}.

Definition linuxHost : Nexodus.Host :=
  {| Nexodus.GOOS := "linux";
     Nexodus.getIPv4Iface_String := fun _ => "100.64.0.1";
     Nexodus.setupInterface_err := None;
     Nexodus.processSecurityGroupRules_err := None |}.

Definition deviceOf (id : string) (p : Nexodus.wgPeerConfig) : Nexodus.public.ModelsDevice :=
  {| Nexodus.public.Id := id;
     Nexodus.public.PublicKey := Nexodus.PublicKey p;
     Nexodus.public.Endpoint := Nexodus.Endpoint p;
     Nexodus.public.AllowedIps := Nexodus.AllowedIPs p;
     Nexodus.public.Relay := false |}.

(** A host that answers the route commands the way route(8) does: its state
    is the routing table (destination prefix and device); adding a
    destination that is in the table fails with "File exists", deleting one
    that is not fails with "not in table". *)
Definition hasRoute (table : list (string * string)) (prefix : string) : bool :=
  existsb (fun r => String.eqb (fst r) prefix) table.

Definition route8 (table : list (string * string)) (cmd : list string)
  : list (string * string) * (string * option error) :=
  match cmd with
  | ["route"; "-q"; "-n"; "add"; "-inet"; prefix; "-interface"; dev] =>
      if hasRoute table prefix
      then (table, ("", Some (errorString "exit status 1 (route: writing to routing socket: File exists)")))
      else ((prefix, dev) :: table, ("", None))
  | ["route"; "-q"; "-n"; "delete"; "-inet"; prefix; "-interface"; dev] =>
      if hasRoute table prefix
      then (filter (fun r => negb (String.eqb (fst r) prefix)) table, ("", None))
      else (table, ("", Some (errorString "exit status 1 (route: writing to routing socket: not in table)")))
  | _ => (table, ("", Some (errorString "exit status 64 (usage)")))
  end.

(** A node that already tracks two exit-node origins. *)
Definition exitNodeWith (origins : list Nexodus.wgPeerConfig) : Nexodus.Nexodus :=
  {| Nexodus.wgConfig_Peers := [];
     Nexodus.TunnelIP := "100.64.0.1";
     Nexodus.tunnelIface := "wg0";
     Nexodus.securityGroup_Id := "";
     Nexodus.wireguardPubKey := "local-key";
     Nexodus.userspaceMode := false;
     Nexodus.exitNodeState :=
       {| Nexodus.exitNodeExists := false; Nexodus.exitNodeOrigins := origins |} |}.

Definition peerB : Nexodus.wgPeerConfig :=
  {| Nexodus.PublicKey := "pubkeyB";
     Nexodus.Endpoint := "10.0.0.3:51820";
     Nexodus.AllowedIPs := ["100.64.0.3/32"];
     Nexodus.PersistentKeepAlive := "0" |}.

(** [peerA] seen again at another endpoint. *)
Definition peerA_moved : Nexodus.wgPeerConfig :=
  {| Nexodus.PublicKey := "pubkeyA";
     Nexodus.Endpoint := "203.0.113.9:51820";
     Nexodus.AllowedIPs := [];
     Nexodus.PersistentKeepAlive := "25" |}.

(** A firewall tool whose state counts the commands it has run and which
    fails from the command numbered [failAt] on. *)
Definition nftFailingAt (failAt : nat) (count : nat) (args : list string)
  : nat * (string * option error) :=
  if Nat.leb failAt count
  then (S count, ("", Some (errorString "exit status 1")))
  else (S count, ("", None)).

(** A Darwin node without network: the UDP dial to the controller fails. *)
Definition offline : Apex.Network :=
  {| Apex.dialUDP := fun _ => (None, Some (errorString "dial udp: network is unreachable"));
     Apex.linuxAddress := fun _ => ([], Some (errorString "no address found"));
     Apex.stunDial := Some (errorString "dial udp4: network is unreachable");
     Apex.stunEvent := None;
     Apex.stunDo := None |}.

(** Textual parsers that know one IPv4 text and one IPv6 text, enough to
    run the classifiers on an example of each family. *)
Definition parseOneIPv4 (s : string) : option IP :=
  if String.eqb s "10.0.0.1"
  then Some [x00; x00; x00; x00; x00; x00; x00; x00; x00; x00; xff; xff; x0a; x00; x00; x01]
  else None.

Definition parseOneIPv6 (s : string) : option (IP * string) :=
  if String.eqb s "2001:db8::1"
  then Some ([x20; x01; x0d; xb8; x00; x00; x00; x00; x00; x00; x00; x00; x00; x00; x00; x01], "")
  else None.

(** [net.ParseCIDR] on two prefixes of the handler tests. *)
Definition parseTwoCIDR (s : string) : (IP * IPNet) + error :=
  if String.eqb s "192.168.100.0/24"
  then inl ([x00; x00; x00; x00; x00; x00; x00; x00; x00; x00; xff; xff; xc0; xa8; x64; x00],
            {| IPNet_IP := [xc0; xa8; x64; x00]; IPNet_Mask := [255; 255; 255; 0]%Z |})
  else if String.eqb s "2001:db8::/32"
  then inl ([x20; x01; x0d; xb8; x00; x00; x00; x00; x00; x00; x00; x00; x00; x00; x00; x00],
            {| IPNet_IP := [x20; x01; x0d; xb8; x00; x00; x00; x00; x00; x00; x00; x00; x00; x00; x00; x00];
               IPNet_Mask := [255; 255; 255; 255; 0; 0; 0; 0; 0; 0; 0; 0; 0; 0; 0; 0]%Z |})
  else inr (errorString ("invalid CIDR address: " ++ s)).

(** A file system given by the list of the paths that exist, in which the
    directories under "/proc" cannot be created. *)
Definition statIn (fs : list string) (path : string) : option error :=
  if existsb (String.eqb path) fs then None
  else Some (errorString "no such file or directory").

Definition isMissing (e : error) : bool :=
  String.eqb (Error e) "no such file or directory".

Definition mkdirIn (fs : list string) (path : string) : list string * option error :=
  if String.prefix "/proc" path then (fs, Some (errorString "operation not permitted"))
  else (path :: fs, None).

(** The interfaces of a host: a loopback whose addresses cannot be listed,
    an Ethernet interface with an IPv6 and an IPv4 address, and the tunnel
    interface. *)
Definition hostInterfaces : list Apex.Interface :=
  [ {| Apex.Name := "lo0";
       Apex.Addrs := ([], Some (errorString "route ip+net: no such network interface")) |};
    {| Apex.Name := "eth0";
       Apex.Addrs :=
         ([ {| Apex.Addr_String := "fe80::1/64";
               Apex.Addr_IPNet :=
                 Some {| IPNet_IP := [xfe; x80; x00; x00; x00; x00; x00; x00;
                                      x00; x00; x00; x00; x00; x00; x00; x01];
                         IPNet_Mask := [255; 255; 255; 255; 255; 255; 255; 255;
                                        0; 0; 0; 0; 0; 0; 0; 0]%Z |} |};
            {| Apex.Addr_String := "192.0.2.10/24";
               Apex.Addr_IPNet :=
                 Some {| IPNet_IP := [xc0; x00; x02; x0a];
                         IPNet_Mask := [255; 255; 255; 0]%Z |} |} ], None) |};
    {| Apex.Name := "wg0";
       Apex.Addrs :=
         ([ {| Apex.Addr_String := "100.64.0.1/32";
               Apex.Addr_IPNet :=
                 Some {| IPNet_IP := [x64; x40; x00; x01];
                         IPNet_Mask := [255; 255; 255; 255]%Z |} |} ], None) |} ].

(** [net.ParseCIDR] on the address texts of that host, and equality of
    addresses of one length. *)
Definition parseHostCIDR (s : string) : (IP * IPNet) + error :=
  if String.eqb s "192.0.2.10/24"
  then inl ([xc0; x00; x02; x0a],
            {| IPNet_IP := [xc0; x00; x02; x00]; IPNet_Mask := [255; 255; 255; 0]%Z |})
  else if String.eqb s "100.64.0.1/32"
  then inl ([x64; x40; x00; x01],
            {| IPNet_IP := [x64; x40; x00; x01]; IPNet_Mask := [255; 255; 255; 255]%Z |})
  else inr (errorString ("invalid CIDR address: " ++ s)).

Definition bytesEqual (a b : IP) : bool :=
  Nat.eqb (length a) (length b)
  && forallb (fun p => Byte.eqb (fst p) (snd p)) (combine a b).

(** A Linux host whose state tells whether the tunnel interface still holds
    the stale address 100.64.0.9: adding an address fails while it does,
    and deleting an address removes it. *)
Definition staleInterfaces (stale : bool) : list Apex.Interface * option error :=
  ([ {| Apex.Name := "wg0";
        Apex.Addrs :=
          (if stale
           then [ {| Apex.Addr_String := "100.64.0.9/32";
                     Apex.Addr_IPNet :=
                       Some {| IPNet_IP := [x64; x40; x00; x09];
                               IPNet_Mask := [255; 255; 255; 255]%Z |} |} ]
           else [], None) |} ], None).

Definition ipTool (stale : bool) (name : string) (args : list string)
  : bool * (string * option error) :=
  match args with
  | "address" :: "add" :: _ =>
      if stale then (stale, ("RTNETLINK answers: File exists", Some (errorString "exit status 2")))
      else (stale, ("", None))
  | "address" :: "del" :: _ => (false, ("", None))
  | _ => (stale, ("", None))
  end.

(** A host given by the names of its links: a link is found by its name and
    deleting it removes the name. *)
Definition linkNamed (links : list string) (name : string) : string + error :=
  if existsb (String.eqb name) links then inl name
  else inr (errorString "Link not found").

Definition removeLink (links : list string) (link : string) : list string * option error :=
  (filter (fun l => negb (String.eqb l link)) links, None).

(** A host whose tunnel interface has lost its address and cannot be
    rebuilt. *)
Definition brokenHost : Nexodus.Host :=
  {| Nexodus.GOOS := "linux";
     Nexodus.getIPv4Iface_String := fun _ => "<nil>";
     Nexodus.setupInterface_err := Some (errorString "failed to create the interface");
     Nexodus.processSecurityGroupRules_err := None |}.

End Scenarios.

(** * Properties *)

(** ** Address classifiers *)

Section ClassifierFacts.

Import IPUtils.

Variable parseIPv4 : string -> option IP.
Variable parseIPv6 : string -> option (IP * string).

Lemma IsIPv6Address_negb (s : string) :
  IsIPv6Address parseIPv4 parseIPv6 s = negb (IsIPv4Address parseIPv4 parseIPv6 s).
Proof. unfold IsIPv6Address, IsIPv4Address. now rewrite negb_involutive. Qed.

Lemma isNil_true (ip : IP) : isNil ip = true <-> ip = [].
Proof. destruct ip; simpl; split; congruence. Qed.

(** A text without ['.'] and [':'] is not an address, whatever the two
    parsers accept. *)
Lemma scanAddr_no_separator (s rest : string) :
  (forall c, In c (list_ascii_of_string rest) -> c <> "."%char /\ c <> ":"%char) ->
  scanAddr parseIPv4 parseIPv6 s rest = None.
Proof.
  induction rest as [|c rest IH]; simpl; intros Hc; [reflexivity|].
  destruct (Hc c (or_introl eq_refl)) as [Hdot Hcolon].
  apply Ascii.eqb_neq in Hdot, Hcolon. rewrite Hdot, Hcolon.
  destruct (Ascii.eqb c "%"); [reflexivity|].
  apply IH. intros c' Hin. apply Hc. now right.
Qed.

(** So such a text is classified as IPv6 and not as IPv4. *)
Lemma IsIPv6Address_no_separator (s : string) :
  (forall c, In c (list_ascii_of_string s) -> c <> "."%char /\ c <> ":"%char) ->
  ParseIP parseIPv4 parseIPv6 s = []
  /\ IsIPv6Address parseIPv4 parseIPv6 s = true
  /\ IsIPv4Address parseIPv4 parseIPv6 s = false.
Proof.
  intros Hs. unfold IsIPv6Address, IsIPv4Address, ParseIP, ParseAddr.
  rewrite (scanAddr_no_separator s s Hs). repeat split.
Qed.

End ClassifierFacts.

(** C9: the address classifiers are not validators.  For every string [s]
    that [net.ParseIP] rejects, [IsIPv6Address s] is true and
    [IsIPv4Address s] is false; so it is for ["abc"] and for the empty
    string, whatever the textual parsers accept.  For every string,
    [IsIPv6Address s] holds exactly when the parsed address has no IPv4
    form, that is exactly when [IsIPv4Address s] does not hold. *)
Theorem IsIPv6Address_not_a_validator :
  forall (parseIPv4 : string -> option IPUtils.IP)
         (parseIPv6 : string -> option (IPUtils.IP * string)) (s : string),
    (IPUtils.ParseIP parseIPv4 parseIPv6 s = [] ->
       IPUtils.IsIPv6Address parseIPv4 parseIPv6 s = true
       /\ IPUtils.IsIPv4Address parseIPv4 parseIPv6 s = false)
    /\ (IPUtils.IsIPv6Address parseIPv4 parseIPv6 s = true
        <-> IPUtils.To4 (IPUtils.ParseIP parseIPv4 parseIPv6 s) = [])
    /\ (IPUtils.IsIPv6Address parseIPv4 parseIPv6 s = true
        <-> IPUtils.IsIPv4Address parseIPv4 parseIPv6 s = false)
    /\ IPUtils.IsIPv6Address parseIPv4 parseIPv6 "abc" = true
    /\ IPUtils.IsIPv4Address parseIPv4 parseIPv6 "abc" = false
    /\ IPUtils.IsIPv6Address parseIPv4 parseIPv6 "" = true
    /\ IPUtils.IsIPv4Address parseIPv4 parseIPv6 "" = false.
Proof.
  intros p4 p6 s.
  split; [|split; [|split; [|repeat split]]].
  - unfold IPUtils.IsIPv6Address, IPUtils.IsIPv4Address.
    intros ->. split; reflexivity.
  - unfold IPUtils.IsIPv6Address. apply isNil_true.
  - rewrite IsIPv6Address_negb. apply negb_true_iff.
Qed.

Lemma IsIPv6Address_not_a_validator_witness :
  IPUtils.ParseIP (fun _ => None) (fun _ => None) "not-an-address" = []
  /\ IPUtils.IsIPv6Address (fun _ => None) (fun _ => None) "not-an-address" = true
  /\ IPUtils.IsIPv4Address (fun _ => None) (fun _ => None) "not-an-address" = false.
Proof.
  split; [reflexivity|].
  exact (proj1 (IsIPv6Address_not_a_validator
                  (fun _ => None) (fun _ => None) "not-an-address") eq_refl).
Defined.

(** ** Darwin route helpers *)

(** C10: on Darwin the route-existence query is a stub.  For every prefix
    string, [RouteExistsOS] returns [false] with a nil error. *)
Theorem RouteExistsOS_always_false :
  forall s : string, Darwin.RouteExistsOS s = (false, None).
Proof. intros s. reflexivity. Qed.

(** C4 (as the code has it): the Darwin [AddRoute] and [DeleteRoute] run one
    route command and swallow nothing.  Each returns nil exactly when its
    command returns nil; an error of the command, whatever its cause, is
    returned wrapped ("v4 route add failed: ", "no route deleted: "), so
    its cause stays the command's error.  The host is left as the command
    left it. *)
Theorem AddRoute_DeleteRoute_surface_every_failure :
  forall (Host : Type)
         (RunCommand : Host -> list string -> Host * (string * option error))
         (h : Host) (prefix dev : string),
    let added :=
      RunCommand h ["route"; "-q"; "-n"; "add"; "-inet"; prefix; "-interface"; dev] in
    let deleted :=
      RunCommand h ["route"; "-q"; "-n"; "delete"; "-inet"; prefix; "-interface"; dev] in
    fst (Darwin.AddRoute Host RunCommand h prefix dev) = fst added
    /\ (snd (Darwin.AddRoute Host RunCommand h prefix dev) = None
        <-> snd (snd added) = None)
    /\ (forall e, snd (snd added) = Some e ->
          snd (Darwin.AddRoute Host RunCommand h prefix dev)
            = Some (wrapError "v4 route add failed: " e)
          /\ rootCause (wrapError "v4 route add failed: " e) = rootCause e
          /\ Error (wrapError "v4 route add failed: " e)
             = "v4 route add failed: " ++ Error e)
    /\ fst (Darwin.DeleteRoute Host RunCommand h prefix dev) = fst deleted
    /\ (snd (Darwin.DeleteRoute Host RunCommand h prefix dev) = None
        <-> snd (snd deleted) = None)
    /\ (forall e, snd (snd deleted) = Some e ->
          snd (Darwin.DeleteRoute Host RunCommand h prefix dev)
            = Some (wrapError "no route deleted: " e)
          /\ rootCause (wrapError "no route deleted: " e) = rootCause e
          /\ Error (wrapError "no route deleted: " e)
             = "no route deleted: " ++ Error e).
Proof.
  intros Host RunCommand h prefix dev. cbv zeta.
  unfold Darwin.AddRoute, Darwin.DeleteRoute.
  destruct (RunCommand h ["route"; "-q"; "-n"; "add"; "-inet"; prefix; "-interface"; dev])
    as [ha [outa [ea|]]];
  destruct (RunCommand h ["route"; "-q"; "-n"; "delete"; "-inet"; prefix; "-interface"; dev])
    as [hd [outd [ed|]]]; simpl;
  repeat split; intros; congruence.
Qed.

Lemma AddRoute_DeleteRoute_surface_every_failure_witness :
  snd (Darwin.AddRoute _ Scenarios.route8 [("100.64.0.2/32", "utun8")] "100.64.0.2/32" "utun8")
    = Some (wrapError "v4 route add failed: "
              (errorString "exit status 1 (route: writing to routing socket: File exists)"))
  /\ snd (Darwin.DeleteRoute _ Scenarios.route8 [] "100.64.0.2/32" "utun8")
    = Some (wrapError "no route deleted: "
              (errorString "exit status 1 (route: writing to routing socket: not in table)")).
Proof.
  pose proof (AddRoute_DeleteRoute_surface_every_failure _ Scenarios.route8
                [("100.64.0.2/32", "utun8")] "100.64.0.2/32" "utun8") as Hadd.
  pose proof (AddRoute_DeleteRoute_surface_every_failure _ Scenarios.route8
                [] "100.64.0.2/32" "utun8") as Hdel.
  cbv zeta in Hadd, Hdel.
  destruct Hadd as (_ & _ & Hadd & _).
  destruct Hdel as (_ & _ & _ & _ & _ & Hdel).
  split; [apply (Hadd _ eq_refl)|apply (Hdel _ eq_refl)].
Defined.

(** C4, the claim as written, fails: on a host that answers like route(8),
    adding a route a second time, and deleting a route that is not there,
    both return an error. *)
Lemma AddRoute_DeleteRoute_not_idempotent :
  ~ (forall (Host : Type)
            (RunCommand : Host -> list string -> Host * (string * option error))
            (h : Host) (prefix dev : string),
       (snd (Darwin.AddRoute Host RunCommand h prefix dev) = None ->
        snd (Darwin.AddRoute Host RunCommand
               (fst (Darwin.AddRoute Host RunCommand h prefix dev)) prefix dev) = None)
       /\ (snd (Darwin.DeleteRoute Host RunCommand h prefix dev) = None ->
           snd (Darwin.DeleteRoute Host RunCommand
                  (fst (Darwin.DeleteRoute Host RunCommand h prefix dev)) prefix dev) = None)).
Proof.
  intros H.
  destruct (H _ Scenarios.route8 [] "100.64.0.2/32" "utun8") as [Hadd _].
  specialize (Hadd eq_refl). discriminate Hadd.
Qed.

(** ** NAT detector *)

Section DetectorFacts.

Import IPUtils Apex.

Variable IPString : IP -> string.

(** Once the host address is known, [IsNAT] is the STUN probe followed by
    the comparison. *)
Lemma IsNAT_after_host (n : Network) (nodeOS controller port hostIP : string) :
  hostAddressIs IPString n nodeOS controller port hostIP ->
  IsNAT IPString n nodeOS controller port =
    match GetPubIPv4 IPString n with
    | (_, Some err) => (false, Some err)
    | (pubIP, None) => (negb (String.eqb hostIP pubIP), None)
    end.
Proof.
  intros (Hgeneric & Hlinux & Hother). unfold IsNAT.
  change (OperatingSystem_String Darwin) with "darwin".
  change (OperatingSystem_String Windows) with "windows".
  change (OperatingSystem_String Linux) with "linux".
  destruct (String.eqb_spec nodeOS "darwin") as [->|Hd].
  - rewrite (Hgeneric (or_introl eq_refl)). simpl.
    destruct (GetPubIPv4 IPString n) as [pubIP [err|]]; [reflexivity|].
    now destruct (String.eqb hostIP pubIP).
  - destruct (String.eqb_spec nodeOS "windows") as [->|Hw].
    + rewrite (Hgeneric (or_intror eq_refl)). simpl.
      destruct (GetPubIPv4 IPString n) as [pubIP [err|]]; [reflexivity|].
      now destruct (String.eqb hostIP pubIP).
    + destruct (String.eqb_spec nodeOS "linux") as [->|Hl].
      * destruct (Hlinux eq_refl) as [Herr ->].
        destruct (linuxAddress n 4) as [linuxIP err]. simpl in Herr |- *. subst err.
        destruct (GetPubIPv4 IPString n) as [pubIP [err|]]; [reflexivity|].
        now destruct (String.eqb (IPString linuxIP) pubIP).
      * rewrite (Hother Hd Hw Hl).
        destruct (GetPubIPv4 IPString n) as [pubIP [err|]]; [reflexivity|].
        now destruct (String.eqb "" pubIP).
Qed.

(** What [GetPubIPv4] returns in each outcome of the probe. *)
Lemma GetPubIPv4_dial_error (n : Network) (e : error) :
  stunDial n = Some e -> GetPubIPv4 IPString n = ("", Some e).
Proof. unfold GetPubIPv4. now intros ->. Qed.

Lemma GetPubIPv4_do_error (n : Network) (e : error) :
  stunDial n = None -> stunDo n = Some e -> GetPubIPv4 IPString n = ("", Some e).
Proof. unfold GetPubIPv4. now intros -> ->. Qed.

Lemma GetPubIPv4_event_error (n : Network) (res : StunEvent) :
  stunDial n = None -> stunDo n = None -> stunEvent n = Some res ->
  evError res <> None \/ evXorMappedAddress res = None ->
  GetPubIPv4 IPString n = ("", None).
Proof.
  unfold GetPubIPv4, stunCallback. intros -> -> -> [He|Hx].
  - destruct (evError res); [reflexivity|contradiction].
  - rewrite Hx. now destruct (evError res).
Qed.

End DetectorFacts.

(** C7: when both the local host address and the address seen by the STUN
    server are obtained without error, [IsNAT] returns no error, reports
    [false] exactly when the two addresses are equal, and [true] exactly
    when they differ. *)
Theorem IsNAT_compares_addresses :
  forall (IPString : IPUtils.IP -> string) (n : Apex.Network)
         (nodeOS controller port hostIP pubIP : string),
    Apex.hostAddressIs IPString n nodeOS controller port hostIP ->
    Apex.GetPubIPv4 IPString n = (pubIP, None) ->
    snd (Apex.IsNAT IPString n nodeOS controller port) = None
    /\ (fst (Apex.IsNAT IPString n nodeOS controller port) = false <-> hostIP = pubIP)
    /\ (fst (Apex.IsNAT IPString n nodeOS controller port) = true <-> hostIP <> pubIP).
Proof.
  intros IPString n nodeOS controller port hostIP pubIP Hhost Hpub.
  rewrite (IsNAT_after_host IPString n nodeOS controller port hostIP Hhost), Hpub.
  simpl. split; [reflexivity|].
  destruct (String.eqb_spec hostIP pubIP) as [Heq|Hne]; simpl; split; split;
    congruence.
Qed.

Lemma IsNAT_compares_addresses_witness :
  snd (Apex.IsNAT Scenarios.ipText
         (Scenarios.stunAnswers [xc0; x00; x02; x0a]) "darwin" "controller" "443") = None
  /\ (fst (Apex.IsNAT Scenarios.ipText
             (Scenarios.stunAnswers [xc0; x00; x02; x0a]) "darwin" "controller" "443") = false
      <-> "192.0.2.10" = "192.0.2.10")
  /\ (fst (Apex.IsNAT Scenarios.ipText
             (Scenarios.stunAnswers [xc0; x00; x02; x0a]) "darwin" "controller" "443") = true
      <-> "192.0.2.10" <> "192.0.2.10").
Proof.
  refine (IsNAT_compares_addresses Scenarios.ipText
            (Scenarios.stunAnswers [xc0; x00; x02; x0a])
            "darwin" "controller" "443" "192.0.2.10" "192.0.2.10" _ eq_refl).
  unfold Apex.hostAddressIs. split; [|split].
  - intros _. reflexivity.
  - intros H. discriminate H.
  - intros H. contradiction H. reflexivity.
Defined.

(** A Linux node at 192.0.2.10 that the STUN server sees at 198.51.100.7 is
    behind a NAT; seen at 192.0.2.10 it is not. *)
Example IsNAT_mapped_address :
  Apex.GetPubIPv4 Scenarios.ipText (Scenarios.stunAnswers [xc6; x33; x64; x07])
    = ("198.51.100.7", None)
  /\ Apex.IsNAT Scenarios.ipText (Scenarios.stunAnswers [xc6; x33; x64; x07])
       "linux" "controller" "443" = (true, None)
  /\ Apex.IsNAT Scenarios.ipText (Scenarios.stunAnswers [xc0; x00; x02; x0a])
       "linux" "controller" "443" = (false, None).
Proof. repeat split. Qed.

(** C2 (as the code has it): a failure of the STUN probe is not turned into
    [isNATed = true].  When the STUN dial or the STUN transaction returns
    an error, [IsNAT] returns [false] together with that error.  When the
    failure reaches only the callback of the transaction (the event carries
    an error, or the mapped address cannot be decoded), [GetPubIPv4]
    returns the empty address with no error, and [IsNAT] reports [true]
    exactly when the host address is not empty. *)
Theorem IsNAT_probe_failure :
  forall (IPString : IPUtils.IP -> string) (n : Apex.Network)
         (nodeOS controller port hostIP : string),
    Apex.hostAddressIs IPString n nodeOS controller port hostIP ->
    (forall e, Apex.stunDial n = Some e ->
       Apex.IsNAT IPString n nodeOS controller port = (false, Some e))
    /\ (forall e, Apex.stunDial n = None -> Apex.stunDo n = Some e ->
          Apex.IsNAT IPString n nodeOS controller port = (false, Some e))
    /\ (forall res, Apex.stunDial n = None -> Apex.stunDo n = None ->
          Apex.stunEvent n = Some res ->
          Apex.evError res <> None \/ Apex.evXorMappedAddress res = None ->
          Apex.IsNAT IPString n nodeOS controller port
            = (negb (String.eqb hostIP ""), None)).
Proof.
  intros IPString n nodeOS controller port hostIP Hhost.
  rewrite (IsNAT_after_host IPString n nodeOS controller port hostIP Hhost).
  split; [|split].
  - intros e Hdial. now rewrite (GetPubIPv4_dial_error IPString n e Hdial).
  - intros e Hdial Hdo. now rewrite (GetPubIPv4_do_error IPString n e Hdial Hdo).
  - intros res Hdial Hdo Hev Hfail.
    now rewrite (GetPubIPv4_event_error IPString n res Hdial Hdo Hev Hfail).
Qed.

Lemma IsNAT_probe_failure_witness :
  Apex.IsNAT Scenarios.ipText Scenarios.stunUnreachable "linux" "controller" "443"
    = (false, Some (errorString "dial udp4: i/o timeout")).
Proof.
  refine (proj1 (IsNAT_probe_failure Scenarios.ipText Scenarios.stunUnreachable
                   "linux" "controller" "443" "192.0.2.10" _) _ eq_refl).
  unfold Apex.hostAddressIs. split; [|split].
  - intros [H|H]; discriminate H.
  - intros _. split; reflexivity.
  - intros _ _ H. contradiction H. reflexivity.
Defined.

(** A transaction that times out reaches the callback only: the probe
    returns the empty address and the node is reported as NAT'd. *)
Example IsNAT_transaction_timeout :
  Apex.GetPubIPv4 Scenarios.ipText Scenarios.stunTimesOut = ("", None)
  /\ Apex.IsNAT Scenarios.ipText Scenarios.stunTimesOut "linux" "controller" "443"
     = (true, None).
Proof. split; reflexivity. Qed.

(** C2, the claim as written, fails: on a node whose host address is found
    and whose STUN dial times out, [IsNAT] returns [false] and the error. *)
Lemma IsNAT_probe_failure_not_NATed :
  ~ (forall (IPString : IPUtils.IP -> string) (n : Apex.Network)
            (nodeOS controller port hostIP : string),
       Apex.hostAddressIs IPString n nodeOS controller port hostIP ->
       Apex.stunProbeFails n ->
       fst (Apex.IsNAT IPString n nodeOS controller port) = true).
Proof.
  intros H.
  specialize (H Scenarios.ipText Scenarios.stunUnreachable
                "linux" "controller" "443" "192.0.2.10").
  assert (Hhost : Apex.hostAddressIs Scenarios.ipText Scenarios.stunUnreachable
                    "linux" "controller" "443" "192.0.2.10").
  { unfold Apex.hostAddressIs. split; [|split].
    - intros [E|E]; discriminate E.
    - intros _. split; reflexivity.
    - intros _ _ E. contradiction E. reflexivity. }
  assert (Hfail : Apex.stunProbeFails Scenarios.stunUnreachable).
  { left. discriminate. }
  specialize (H Hhost Hfail). discriminate H.
Qed.

(** ** The deployment pass *)

Section DeployFacts.

Import Nexodus.

Lemma trace_bind {A B : Type} (m : Act A) (f : A -> Act B) :
  trace (bind m f) = (trace m ++ trace (f (result m)))%list.
Proof. destruct m as [t a]. unfold bind, trace, result. simpl. now destruct (f a). Qed.

Lemma trace_forRange {A : Type} (l : list A) (body : A -> Act unit) :
  trace (forRange l body) = flat_map (fun x => trace (body x)) l.
Proof.
  induction l as [|x l IH]; [reflexivity|].
  simpl. now rewrite trace_bind, IH.
Qed.

Lemma trace_install (ax : Nexodus) (peer : wgPeerConfig) :
  trace (bind (handlePeerRoute ax peer) (fun _ => call (handlePeerTunnel peer) tt))
  = installPeer ax peer.
Proof. unfold handlePeerRoute, installPeer. now destruct (userspaceMode ax). Qed.

(** The loop of the first convergence. *)
Lemma trace_firstTime_loop (ax : Nexodus) (peers : list wgPeerConfig) :
  trace (forRange peers (fun peer =>
           bind (handlePeerRoute ax peer) (fun _ => call (handlePeerTunnel peer) tt)))
  = flat_map (installPeer ax) peers.
Proof.
  rewrite trace_forRange. apply flat_map_ext. intros p. apply trace_install.
Qed.

(** The calls of the inner loop of a later cycle, for one entry of the new
    peer list. *)
Lemma trace_inner_loop (ax : Nexodus) (key : string) (peers : list wgPeerConfig) :
  trace (forRange peers (fun peer =>
           if String.eqb (PublicKey peer) key
              && negb (String.eqb key (wireguardPubKey ax))
           then bind (handlePeerRoute ax peer) (fun _ => call (handlePeerTunnel peer) tt)
           else ret tt))
  = flat_map (fun peer =>
                if String.eqb (PublicKey peer) key
                   && negb (String.eqb key (wireguardPubKey ax))
                then installPeer ax peer else []) peers.
Proof.
  rewrite trace_forRange. apply flat_map_ext. intros p.
  destruct (_ && _); [apply trace_install|reflexivity].
Qed.

Lemma bind_then_nil (m : Act unit) :
  bind m (fun _ => ret (@None error)) = (trace m, None).
Proof. destruct m as [t u]. unfold bind, ret, trace. simpl. now rewrite app_nil_r. Qed.

(** One pass, step by step: the interface step, the security-group step,
    then the peer loop of the first convergence or of a later cycle. *)
Lemma DeployWireguardConfig_run (h : Host) (ax : Nexodus)
  (newPeers : list public.ModelsDevice) (firstTime : bool) :
  DeployWireguardConfig h ax newPeers firstTime =
    let rebuild := negb (String.eqb (TunnelIP ax) (getIPv4Iface_String h (tunnelIface ax))) in
    let interfaceCalls := if rebuild then [setupInterface] else [] in
    let policy := negb (String.eqb (securityGroup_Id ax) "") && String.eqb (GOOS h) "linux" in
    let policyCalls := if policy then [processSecurityGroupRules] else [] in
    match (if rebuild then setupInterface_err h else None) with
    | Some e => (interfaceCalls, Some e)
    | None =>
        match (if policy then processSecurityGroupRules_err h else None) with
        | Some e => ((interfaceCalls ++ policyCalls)%list, Some e)
        | None =>
            ((interfaceCalls ++ policyCalls ++
              (if firstTime
               then flat_map (installPeer ax) (wgConfig_Peers ax)
               else flat_map (fun newPeer =>
                      if negb (String.eqb (public.Id newPeer) "")
                      then flat_map (fun peer =>
                             if String.eqb (PublicKey peer) (public.PublicKey newPeer)
                                && negb (String.eqb (public.PublicKey newPeer)
                                                    (wireguardPubKey ax))
                             then installPeer ax peer else []) (wgConfig_Peers ax)
                      else []) newPeers))%list, None)
        end
    end.
Proof.
  unfold DeployWireguardConfig.
  change (Apex.OperatingSystem_String Apex.Linux) with "linux".
  set (loop := if firstTime then _ else _).
  assert (Hloop' : loop =
            (trace (if firstTime
                    then forRange (wgConfig_Peers ax) (fun peer =>
                           bind (handlePeerRoute ax peer)
                                (fun _ => call (handlePeerTunnel peer) tt))
                    else forRange newPeers (fun newPeer =>
                           if negb (String.eqb (public.Id newPeer) "")
                           then forRange (wgConfig_Peers ax) (fun peer =>
                                  if String.eqb (PublicKey peer) (public.PublicKey newPeer)
                                     && negb (String.eqb (public.PublicKey newPeer)
                                                         (wireguardPubKey ax))
                                  then bind (handlePeerRoute ax peer)
                                            (fun _ => call (handlePeerTunnel peer) tt)
                                  else ret tt)
                           else ret tt)), None)).
  { subst loop. destruct firstTime; apply bind_then_nil. }
  rewrite Hloop'. clear Hloop' loop.
  set (t := trace _).
  assert (Ht : t = if firstTime
                   then flat_map (installPeer ax) (wgConfig_Peers ax)
                   else flat_map (fun newPeer =>
                          if negb (String.eqb (public.Id newPeer) "")
                          then flat_map (fun peer =>
                                 if String.eqb (PublicKey peer) (public.PublicKey newPeer)
                                    && negb (String.eqb (public.PublicKey newPeer)
                                                        (wireguardPubKey ax))
                                 then installPeer ax peer else []) (wgConfig_Peers ax)
                          else []) newPeers).
  { subst t. destruct firstTime.
    - apply trace_firstTime_loop.
    - rewrite trace_forRange. apply flat_map_ext. intros newPeer.
      destruct (negb _); [apply trace_inner_loop|reflexivity]. }
  rewrite Ht. clear Ht t.
  destruct (negb (String.eqb (TunnelIP ax) _)); simpl;
    [destruct (setupInterface_err h); simpl; [reflexivity|]|];
    (destruct (negb (String.eqb (securityGroup_Id ax) "") && String.eqb (GOOS h) "linux");
     simpl; [destruct (processSecurityGroupRules_err h); reflexivity|reflexivity]).
Qed.

(** The peer calls of one pass. *)
Lemma installedPeer_installPeer (ax : Nexodus) (peer : wgPeerConfig) (c : Call) :
  In c (installPeer ax peer) -> installedPeer c = Some peer.
Proof.
  unfold installPeer. intros [<-|[<-|[]]]; [|reflexivity].
  now destruct (userspaceMode ax).
Qed.

End DeployFacts.

(** C3: on the first convergence, when the interface step and the
    security-group step do not fail, [DeployWireguardConfig] returns nil
    and, after those steps, installs the whole cached configuration: the
    route and then the tunnel of every cached peer, in the order of the
    cache, whatever the new peer list holds. *)
Theorem DeployWireguardConfig_first_convergence :
  forall (h : Nexodus.Host) (ax : Nexodus.Nexodus)
         (newPeers : list Nexodus.public.ModelsDevice),
    Nexodus.interfaceStepSucceeds h ax ->
    Nexodus.securityGroupStepSucceeds h ax ->
    Nexodus.result (Nexodus.DeployWireguardConfig h ax newPeers true) = None
    /\ (exists steps,
          sublist steps [Nexodus.setupInterface; Nexodus.processSecurityGroupRules]
          /\ Nexodus.trace (Nexodus.DeployWireguardConfig h ax newPeers true)
             = (steps ++ flat_map (Nexodus.installPeer ax) (Nexodus.wgConfig_Peers ax))%list)
    /\ (forall peer, In peer (Nexodus.wgConfig_Peers ax) ->
          exists route,
            Nexodus.isRouteCall route = true
            /\ Nexodus.installedPeer route = Some peer
            /\ In route (Nexodus.trace (Nexodus.DeployWireguardConfig h ax newPeers true))
            /\ In (Nexodus.handlePeerTunnel peer)
                  (Nexodus.trace (Nexodus.DeployWireguardConfig h ax newPeers true))).
Proof.
  intros h ax newPeers Hiface Hgroup.
  assert (Hrun :
    exists steps,
      sublist steps [Nexodus.setupInterface; Nexodus.processSecurityGroupRules]
      /\ Nexodus.DeployWireguardConfig h ax newPeers true
         = ((steps ++ flat_map (Nexodus.installPeer ax) (Nexodus.wgConfig_Peers ax))%list,
            None)).
  { rewrite DeployWireguardConfig_run. cbv zeta.
    unfold Nexodus.interfaceStepSucceeds in Hiface.
    unfold Nexodus.securityGroupStepSucceeds in Hgroup.
    destruct (String.eqb_spec (Nexodus.TunnelIP ax)
                (Nexodus.getIPv4Iface_String h (Nexodus.tunnelIface ax))) as [Haddr|Haddr];
      simpl negb; cbv iota.
    - destruct (String.eqb_spec (Nexodus.securityGroup_Id ax) "") as [Hid|Hid]; simpl.
      + exists []. split; [apply sublist_nil_l|reflexivity].
      + destruct (String.eqb_spec (Nexodus.GOOS h) "linux") as [Hos|Hos].
        * rewrite (Hgroup Hid Hos).
          exists [Nexodus.processSecurityGroupRules]. split; [|reflexivity].
          apply sublist_cons, sublist_skip, sublist_nil_l.
        * exists []. split; [apply sublist_nil_l|reflexivity].
    - rewrite (Hiface Haddr).
      destruct (String.eqb_spec (Nexodus.securityGroup_Id ax) "") as [Hid|Hid]; simpl.
      + exists [Nexodus.setupInterface]. split; [|reflexivity].
        apply sublist_skip, sublist_nil_l.
      + destruct (String.eqb_spec (Nexodus.GOOS h) "linux") as [Hos|Hos].
        * rewrite (Hgroup Hid Hos).
          exists [Nexodus.setupInterface; Nexodus.processSecurityGroupRules].
          split; reflexivity.
        * exists [Nexodus.setupInterface]. split; [|reflexivity].
          apply sublist_skip, sublist_nil_l. }
  destruct Hrun as (steps & Hsteps & Hrun). rewrite Hrun.
  unfold Nexodus.result, Nexodus.trace. simpl.
  split; [reflexivity|]. split; [now exists steps|].
  intros peer Hpeer.
  exists (if Nexodus.userspaceMode ax
          then Nexodus.handlePeerRouteUS peer else Nexodus.handlePeerRouteOS peer).
  repeat split.
  - now destruct (Nexodus.userspaceMode ax).
  - now destruct (Nexodus.userspaceMode ax).
  - apply in_or_app. right. apply in_flat_map. exists peer. split; [exact Hpeer|].
    unfold Nexodus.installPeer. now left.
  - apply in_or_app. right. apply in_flat_map. exists peer. split; [exact Hpeer|].
    unfold Nexodus.installPeer. right. now left.
Qed.

Lemma DeployWireguardConfig_first_convergence_witness :
  Nexodus.result
    (Nexodus.DeployWireguardConfig Scenarios.linuxHost
       (Scenarios.node [Scenarios.peerA] "sg-1")
       [Scenarios.deviceOf "device-a" Scenarios.peerA] true) = None.
Proof.
  refine (proj1 (DeployWireguardConfig_first_convergence Scenarios.linuxHost
                   (Scenarios.node [Scenarios.peerA] "sg-1")
                   [Scenarios.deviceOf "device-a" Scenarios.peerA] _ _)).
  - intros H. reflexivity.
  - intros _ _. reflexivity.
Defined.

(** The scenario of the spec: one cached peer on the first convergence gives
    one route call and one tunnel call for it. *)
Example first_convergence_one_peer :
  Nexodus.DeployWireguardConfig Scenarios.linuxHost
    (Scenarios.node [Scenarios.peerA] "")
    [Scenarios.deviceOf "device-a" Scenarios.peerA] true
  = ([Nexodus.handlePeerRouteOS Scenarios.peerA; Nexodus.handlePeerTunnel Scenarios.peerA],
     None).
Proof. reflexivity. Qed.



(** The cache holds the local key and the new list names it: a later cycle
    installs the other peer only. *)
Example later_cycle_skips_own_key :
  Nexodus.DeployWireguardConfig Scenarios.linuxHost
    (Scenarios.node [Scenarios.ownPeer; Scenarios.peerA] "")
    [Scenarios.deviceOf "device-0" Scenarios.ownPeer;
     Scenarios.deviceOf "device-a" Scenarios.peerA] false
  = ([Nexodus.handlePeerRouteOS Scenarios.peerA; Nexodus.handlePeerTunnel Scenarios.peerA],
     None).
Proof. reflexivity. Qed.


(** C8 (as the code has it): in a pass where the node has a non-empty
    security group, the platform is Linux and the interface step does not
    fail, the security-group rules are applied once, after the interface
    step and before every peer route and tunnel of the pass; when applying
    them fails, the pass returns that error and installs no peer. *)
Theorem DeployWireguardConfig_security_group_first :
  forall (h : Nexodus.Host) (ax : Nexodus.Nexodus)
         (newPeers : list Nexodus.public.ModelsDevice) (firstTime : bool),
    Nexodus.securityGroup_Id ax <> "" ->
    Nexodus.GOOS h = "linux" ->
    Nexodus.interfaceStepSucceeds h ax ->
    exists before after,
      Nexodus.trace (Nexodus.DeployWireguardConfig h ax newPeers firstTime)
        = (before ++ Nexodus.processSecurityGroupRules :: after)%list
      /\ Forall (fun c => c = Nexodus.setupInterface) before
      /\ Forall (fun c => Nexodus.installedPeer c <> None) after
      /\ (forall e, Nexodus.processSecurityGroupRules_err h = Some e ->
            after = []
            /\ Nexodus.result (Nexodus.DeployWireguardConfig h ax newPeers firstTime)
               = Some e).
Proof.
  intros h ax newPeers firstTime Hid Hos Hiface.
  rewrite DeployWireguardConfig_run. cbv zeta.
  apply String.eqb_neq in Hid. rewrite Hid, Hos. simpl.
  set (peerCalls := if firstTime then _ else _).
  assert (Hpeers : Forall (fun c => Nexodus.installedPeer c <> None) peerCalls).
  { assert (Hinstall : forall p,
              Forall (fun c => Nexodus.installedPeer c <> None) (Nexodus.installPeer ax p)).
    { intros p. unfold Nexodus.installPeer.
      repeat constructor; [now destruct (Nexodus.userspaceMode ax)|discriminate]. }
    subst peerCalls. apply List.Forall_forall. intros c Hc.
    destruct firstTime.
    - apply in_flat_map in Hc. destruct Hc as (p & _ & Hc).
      specialize (Hinstall p). rewrite List.Forall_forall in Hinstall. now apply Hinstall.
    - apply in_flat_map in Hc. destruct Hc as (newPeer & _ & Hc).
      destruct (negb _); [|contradiction].
      apply in_flat_map in Hc. destruct Hc as (p & _ & Hc).
      destruct (_ && _); [|contradiction].
      specialize (Hinstall p). rewrite List.Forall_forall in Hinstall. now apply Hinstall. }
  unfold Nexodus.interfaceStepSucceeds in Hiface.
  destruct (String.eqb_spec (Nexodus.TunnelIP ax)
              (Nexodus.getIPv4Iface_String h (Nexodus.tunnelIface ax))) as [Haddr|Haddr];
    simpl; [|rewrite (Hiface Haddr)];
    destruct (Nexodus.processSecurityGroupRules_err h) as [e|];
    unfold Nexodus.trace, Nexodus.result; simpl.
  - exists [], []. repeat split; try constructor; congruence.
  - exists [], peerCalls. repeat split; try constructor; try assumption; discriminate.
  - exists [Nexodus.setupInterface], []. repeat split; try constructor; try constructor;
      congruence.
  - exists [Nexodus.setupInterface], peerCalls.
    repeat split; try constructor; try constructor; try assumption; discriminate.
Qed.

Lemma DeployWireguardConfig_security_group_first_witness :
  exists before after,
    Nexodus.trace
      (Nexodus.DeployWireguardConfig Scenarios.linuxHost
         (Scenarios.node [Scenarios.peerA] "sg-1")
         [Scenarios.deviceOf "device-a" Scenarios.peerA] false)
      = (before ++ Nexodus.processSecurityGroupRules :: after)%list
    /\ Forall (fun c => c = Nexodus.setupInterface) before
    /\ Forall (fun c => Nexodus.installedPeer c <> None) after
    /\ (forall e, Nexodus.processSecurityGroupRules_err Scenarios.linuxHost = Some e ->
          after = []
          /\ Nexodus.result
               (Nexodus.DeployWireguardConfig Scenarios.linuxHost
                  (Scenarios.node [Scenarios.peerA] "sg-1")
                  [Scenarios.deviceOf "device-a" Scenarios.peerA] false)
             = Some e).
Proof.
  apply (DeployWireguardConfig_security_group_first Scenarios.linuxHost
           (Scenarios.node [Scenarios.peerA] "sg-1")
           [Scenarios.deviceOf "device-a" Scenarios.peerA] false).
  - discriminate.
  - reflexivity.
  - intros H. reflexivity.
Defined.

(** C8, the claim as written, fails: with a security group on Linux the
    rules are applied first and the peer's route and tunnel come after. *)
Lemma DeployWireguardConfig_security_group_not_last :
  ~ (forall (h : Nexodus.Host) (ax : Nexodus.Nexodus)
            (newPeers : list Nexodus.public.ModelsDevice) (firstTime : bool)
            (before after : list Nexodus.Call),
       Nexodus.securityGroup_Id ax <> "" ->
       Nexodus.GOOS h = "linux" ->
       Nexodus.trace (Nexodus.DeployWireguardConfig h ax newPeers firstTime)
         = (before ++ Nexodus.processSecurityGroupRules :: after)%list ->
       Forall (fun c => Nexodus.installedPeer c = None) after).
Proof.
  intros H.
  specialize (H Scenarios.linuxHost (Scenarios.node [Scenarios.peerA] "sg-1")
                [Scenarios.deviceOf "device-a" Scenarios.peerA] false
                []
                [Nexodus.handlePeerRouteOS Scenarios.peerA;
                 Nexodus.handlePeerTunnel Scenarios.peerA]).
  assert (Hall : Forall (fun c => Nexodus.installedPeer c = None)
                   [Nexodus.handlePeerRouteOS Scenarios.peerA;
                    Nexodus.handlePeerTunnel Scenarios.peerA]).
  { apply H; [discriminate|reflexivity|reflexivity]. }
  inversion Hall as [|c l Hc Hl]. discriminate Hc.
Qed.

(** ** Exit-node origin tracker *)

Section OriginFacts.

Import Nexodus.




End OriginFacts.



(** The origin set after [peerA] is seen again elsewhere: its entry has the
    new endpoint and keeps its other fields; the set has no third entry. *)
Example origin_endpoint_overwritten :
  Nexodus.exitNodeOrigins
    (Nexodus.exitNodeState
       (Nexodus.updateExitNodeOrigins
          (Scenarios.exitNodeWith [Scenarios.peerB; Scenarios.peerA]) Scenarios.peerA_moved))
  = [Scenarios.peerB;
     {| Nexodus.PublicKey := "pubkeyA";
        Nexodus.Endpoint := "203.0.113.9:51820";
        Nexodus.AllowedIPs := ["100.64.0.2/32"];
        Nexodus.PersistentKeepAlive := "0" |}].
Proof. reflexivity. Qed.

(** ** Exit-node NAT manager *)

(** Unfolds one run of the setup over a journal-keeping tool and splits on
    the outcome of each command in turn. *)
Ltac run_setup policyCmd :=
  unfold Nexodus.exitNodeNATSetup, Nexodus.andThen,
    Nexodus.addExitDestinationTable, Nexodus.addExitOriginPreroutingChain,
    Nexodus.addExitOriginPostroutingChain, Nexodus.addExitOriginForwardChain,
    Nexodus.addExitOriginPostroutingRule, Nexodus.addExitOriginForwardRule,
    Nexodus.policyStep, Nexodus.recording;
  simpl;
  repeat match goal with
         | |- context [policyCmd ?fw ?args] =>
             destruct (policyCmd fw args) as [? [? [?|]]]; simpl
         end.

(** In a journal given command by command, a question about its [i]-th
    entry is settled by looking at each index in turn. *)
Ltac each_index i H :=
  destruct i as [|[|[|[|[|[|i]]]]]]; simpl in H; try discriminate H.

Ltac chain_added table :=
  unfold Nexodus.chainExists; simpl;
  first [ exists (Nexodus.preroutingChainCmd table); split;
            [solve [repeat constructor]|reflexivity]
        | exists (Nexodus.postroutingChainCmd table); split;
            [solve [repeat constructor]|reflexivity]
        | exists (Nexodus.forwardChainCmd table); split;
            [solve [repeat constructor]|reflexivity] ].

(** C5: the setup of the Exit-Node NAT Manager, run over any firewall tool.
    The commands it issues are an initial part of the plan: table,
    prerouting chain, postrouting chain, forward chain, postrouting rule,
    forward rule.  A command that fails is the last one issued, and its
    error is the one returned; the setup returns nil exactly when all six
    commands were issued and succeeded.  Hence when a rule is added, the
    chain it belongs to was added with success before it, and when a chain
    is added, the table was added with success before it.  Keeping the
    journal changes neither the firewall nor the result. *)
Theorem exitNodeNATSetup_table_chains_rules :
  forall (Firewall : Type)
         (policyCmd : Firewall -> list string -> Firewall * (string * option error))
         (nfExitNodeTable wgIface phyIface : string) (fw : Firewall),
    let run :=
      Nexodus.exitNodeNATSetup (Nexodus.Journal * Firewall) (Nexodus.recording policyCmd)
        nfExitNodeTable wgIface phyIface ([], fw) in
    let journal := fst (fst run) in
    let err := snd run in
    map fst journal `prefix_of` Nexodus.setupPlan nfExitNodeTable wgIface phyIface
    /\ (forall i args e, journal !! i = Some (args, Some e) ->
          S i = length journal /\ exists pre, err = Some (wrapError pre e))
    /\ (err = None <->
          map fst journal = Nexodus.setupPlan nfExitNodeTable wgIface phyIface
          /\ Forall (fun entry => snd entry = None) journal)
    /\ (forall i args r chain, journal !! i = Some (args, r) ->
          Nexodus.ruleChain args = Some chain ->
          Nexodus.chainExists chain (take i journal))
    /\ (forall i args r chain, journal !! i = Some (args, r) ->
          Nexodus.addedChain args = Some chain ->
          Nexodus.tableExists (take i journal))
    /\ snd (fst run)
       = fst (Nexodus.exitNodeNATSetup Firewall policyCmd nfExitNodeTable wgIface phyIface fw)
    /\ err
       = snd (Nexodus.exitNodeNATSetup Firewall policyCmd nfExitNodeTable wgIface phyIface fw).
Proof.
  intros Firewall policyCmd table wg phy fw. cbv zeta.
  run_setup policyCmd.
  all: unfold Nexodus.setupPlan.
  all: split; [eexists; reflexivity|].
  all: split;
    [intros i args e' Hlook; each_index i Hlook;
     (injection Hlook as <- <-; split; [reflexivity|eexists; reflexivity])|].
  all: split;
    [split;
     [intros Herr; try discriminate Herr; (split; [reflexivity|repeat constructor])
     |intros [Hplan Hall]; try discriminate Hplan; try reflexivity;
      repeat rewrite Forall_cons in Hall; simpl in Hall;
      decompose [and] Hall; discriminate]|].
  all: split;
    [intros i args r chain Hlook Hrule; each_index i Hlook;
     (injection Hlook as <- <-; simpl in Hrule; try discriminate Hrule;
      (injection Hrule as <-; chain_added table))|].
  all: split;
    [intros i args r chain Hlook Hchain; each_index i Hlook;
     (injection Hlook as <- <-; simpl in Hchain; try discriminate Hchain;
      (exists (Nexodus.tableCmd table); split; [solve [repeat constructor]|reflexivity]))|].
  all: split; reflexivity.
Qed.

Lemma exitNodeNATSetup_table_chains_rules_witness :
  3 = length (fst (fst (Nexodus.exitNodeNATSetup (Nexodus.Journal * nat)
                          (Nexodus.recording (Scenarios.nftFailingAt 2))
                          "nexodus-exit-node" "wg0" "eth0" ([], 0))))
  /\ Nexodus.chainExists "forward"
       (take 5 (fst (fst (Nexodus.exitNodeNATSetup (Nexodus.Journal * nat)
                            (Nexodus.recording (Scenarios.nftFailingAt 6))
                            "nexodus-exit-node" "wg0" "eth0" ([], 0))))).
Proof.
  pose proof (exitNodeNATSetup_table_chains_rules nat (Scenarios.nftFailingAt 2)
                "nexodus-exit-node" "wg0" "eth0" 0) as Hfails.
  pose proof (exitNodeNATSetup_table_chains_rules nat (Scenarios.nftFailingAt 6)
                "nexodus-exit-node" "wg0" "eth0" 0) as Hruns.
  cbv zeta in Hfails, Hruns.
  destruct Hfails as (_ & Hlast & _).
  destruct Hruns as (_ & _ & _ & Hrule & _).
  split.
  - apply (Hlast 2 (Nexodus.postroutingChainCmd "nexodus-exit-node")
             (errorString "exit status 1")).
    reflexivity.
  - apply (Hrule 5 (Nexodus.forwardRuleCmd "nexodus-exit-node" "wg0") None "forward").
    + reflexivity.
    + reflexivity.
Defined.

(** The setup over a tool that fails at its third command: the table and
    the prerouting chain are added, the postrouting chain fails, and nothing
    else is tried. *)
Example exitNodeNATSetup_stops_at_first_failure :
  Nexodus.exitNodeNATSetup (Nexodus.Journal * nat)
    (Nexodus.recording (Scenarios.nftFailingAt 2))
    "nexodus-exit-node" "wg0" "eth0" ([], 0)
  = (([(["add"; "table"; "inet"; "nexodus-exit-node"], None);
       (Nexodus.preroutingChainCmd "nexodus-exit-node", None);
       (Nexodus.postroutingChainCmd "nexodus-exit-node", Some (errorString "exit status 1"))],
      3),
     Some (wrapError "failed to add nftables chain nexodus-exit-node: "
             (errorString "exit status 1"))).
Proof. reflexivity. Qed.

(** * Further properties of the code *)

(** ** NAT detector and platform names *)

(** X1: [IsNAT] never reports a NAT together with an error: whenever it
    returns an error, the flag is [false]. *)
Theorem IsNAT_error_flag_false :
  forall (IPString : IPUtils.IP -> string) (n : Apex.Network)
         (nodeOS controller port : string),
    snd (Apex.IsNAT IPString n nodeOS controller port) <> None ->
    fst (Apex.IsNAT IPString n nodeOS controller port) = false.
Proof.
  intros IPString n nodeOS controller port. unfold Apex.IsNAT.
  repeat case_match; simpl; intros Herr; congruence.
Qed.

Lemma IsNAT_error_flag_false_witness :
  fst (Apex.IsNAT Scenarios.ipText Scenarios.stunUnreachable "linux" "controller" "443")
  = false.
Proof.
  apply (IsNAT_error_flag_false Scenarios.ipText Scenarios.stunUnreachable
           "linux" "controller" "443").
  vm_compute. discriminate.
Defined.

(** X2: a failure of the local address discovery ends [IsNAT] before the
    STUN probe: on Darwin and Windows the error of the UDP dial, on Linux
    the error of the Linux discovery, is returned with [false], whatever
    the STUN server would answer. *)
Theorem IsNAT_host_discovery_failure :
  forall (IPString : IPUtils.IP -> string) (n : Apex.Network)
         (nodeOS controller port : string) (e : error),
    (nodeOS = "darwin" \/ nodeOS = "windows") /\
      snd (Apex.discoverGenericIPv4 n controller port) = Some e
    \/ nodeOS = "linux" /\ snd (Apex.linuxAddress n 4) = Some e ->
    Apex.IsNAT IPString n nodeOS controller port = (false, Some e).
Proof.
  intros IPString n nodeOS controller port e H. unfold Apex.IsNAT.
  change (Apex.OperatingSystem_String Apex.Darwin) with "darwin".
  change (Apex.OperatingSystem_String Apex.Windows) with "windows".
  change (Apex.OperatingSystem_String Apex.Linux) with "linux".
  destruct H as [[[-> | ->] H] | [-> H]]; simpl.
  - destruct (Apex.discoverGenericIPv4 n controller port) as [v [e'|]];
      simpl in H; congruence.
  - destruct (Apex.discoverGenericIPv4 n controller port) as [v [e'|]];
      simpl in H; congruence.
  - destruct (Apex.linuxAddress n 4) as [ip [e'|]]; simpl in H; congruence.
Qed.

Lemma IsNAT_host_discovery_failure_witness :
  Apex.IsNAT Scenarios.ipText Scenarios.offline "darwin" "controller" "443"
  = (false, Some (errorString "dial udp: network is unreachable")).
Proof.
  apply (IsNAT_host_discovery_failure Scenarios.ipText Scenarios.offline
           "darwin" "controller" "443").
  left. split; [left; reflexivity|reflexivity].
Defined.

(** X3: for a platform name other than "darwin", "windows" and "linux" (the
    constant [Linux] itself, "Linux", is such a name) [IsNAT] discovers no
    host address and compares the empty address: it reads only the STUN
    part of the network, returns the error of the probe if there is one,
    and otherwise reports a NAT exactly when the probe found an address. *)
Theorem IsNAT_unknown_platform :
  forall (IPString : IPUtils.IP -> string) (n : Apex.Network)
         (nodeOS controller port : string),
    nodeOS <> "darwin" -> nodeOS <> "windows" -> nodeOS <> "linux" ->
    Apex.IsNAT IPString n nodeOS controller port
    = match Apex.GetPubIPv4 IPString n with
      | (_, Some err) => (false, Some err)
      | (pubIP, None) => (negb (String.eqb "" pubIP), None)
      end
    /\ Apex.IsNAT IPString n Apex.Linux controller port
       = Apex.IsNAT IPString n nodeOS controller port.
Proof.
  intros IPString n nodeOS controller port Hd Hw Hl.
  assert (Hunknown : forall os, os <> "darwin" -> os <> "windows" -> os <> "linux" ->
            Apex.IsNAT IPString n os controller port
            = match Apex.GetPubIPv4 IPString n with
              | (_, Some err) => (false, Some err)
              | (pubIP, None) => (negb (String.eqb "" pubIP), None)
              end).
  { intros os Hd' Hw' Hl'. apply IsNAT_after_host.
    unfold Apex.hostAddressIs. split; [|split].
    - intros [E|E]; congruence.
    - intros E. congruence.
    - reflexivity. }
  split; [now apply Hunknown|].
  rewrite (Hunknown nodeOS Hd Hw Hl).
  apply Hunknown; discriminate.
Qed.

Lemma IsNAT_unknown_platform_witness :
  Apex.IsNAT Scenarios.ipText (Scenarios.stunAnswers [xc0; x00; x02; x0a])
    "Linux" "controller" "443" = (true, None).
Proof.
  refine (eq_trans (proj1 (IsNAT_unknown_platform Scenarios.ipText
                             (Scenarios.stunAnswers [xc0; x00; x02; x0a])
                             "Linux" "controller" "443" _ _ _)) _).
  - discriminate.
  - discriminate.
  - discriminate.
  - reflexivity.
Defined.

(** X4: what [GetPubIPv4] returns.  With an error the address is empty.
    There is no error exactly when neither the dial nor the transaction
    returns one.  A non-empty address is the text of the mapped address of
    an event without error, and comes with no error. *)
Theorem GetPubIPv4_outcomes :
  forall (IPString : IPUtils.IP -> string) (n : Apex.Network),
    (snd (Apex.GetPubIPv4 IPString n) <> None -> fst (Apex.GetPubIPv4 IPString n) = "")
    /\ (snd (Apex.GetPubIPv4 IPString n) = None
        <-> Apex.stunDial n = None /\ Apex.stunDo n = None)
    /\ (fst (Apex.GetPubIPv4 IPString n) <> "" ->
          snd (Apex.GetPubIPv4 IPString n) = None
          /\ exists res ip,
               Apex.stunEvent n = Some res
               /\ Apex.evError res = None
               /\ Apex.evXorMappedAddress res = Some ip
               /\ fst (Apex.GetPubIPv4 IPString n) = IPString ip).
Proof.
  intros IPString n. unfold Apex.GetPubIPv4, Apex.stunCallback.
  destruct (Apex.stunDial n) as [e|]; simpl.
  - repeat split; try congruence. intros [H _]. discriminate H.
  - destruct (Apex.stunDo n) as [e|]; simpl.
    + repeat split; try congruence. intros [_ H]. discriminate H.
    + split; [congruence|]. split; [tauto|].
      destruct (Apex.stunEvent n) as [res|]; [|congruence].
      destruct (Apex.evError res) as [e|] eqn:He; [congruence|].
      destruct (Apex.evXorMappedAddress res) as [ip|] eqn:Hx; [|congruence].
      intros _. split; [reflexivity|]. exists res, ip. auto.
Qed.

Lemma GetPubIPv4_outcomes_witness :
  fst (Apex.GetPubIPv4 Scenarios.ipText Scenarios.stunUnreachable) = "".
Proof.
  apply (proj1 (GetPubIPv4_outcomes Scenarios.ipText Scenarios.stunUnreachable)).
  vm_compute. discriminate.
Defined.

Section HostPartFacts.

Import Apex.

Lemma beforeColon_no_colon (s : string) (c : ascii) :
  In c (list_ascii_of_string (beforeColon s)) -> c <> ":"%char.
Proof.
  induction s as [|a s IH]; simpl; [tauto|].
  destruct (Ascii.eqb_spec a ":"%char) as [->|Hne]; simpl; [tauto|].
  intros [<-|Hin]; [exact Hne|now apply IH].
Qed.

Lemma beforeColon_prefix (s : string) :
  exists rest, s = beforeColon s ++ rest.
Proof.
  induction s as [|a s [rest IH]]; simpl; [now exists ""|].
  destruct (Ascii.eqb a ":"%char); simpl.
  - now exists (String a s).
  - exists rest. change (String a s = String a (beforeColon s ++ rest)).
    now f_equal.
Qed.

Lemma beforeColon_host_port (host rest : string) :
  (forall c, In c (list_ascii_of_string host) -> c <> ":"%char) ->
  beforeColon (host ++ ":" ++ rest) = host.
Proof.
  induction host as [|a host IH]; simpl; intros Hhost; [reflexivity|].
  destruct (Ascii.eqb_spec a ":"%char) as [->|_].
  - now destruct (Hhost ":"%char (or_introl eq_refl)).
  - f_equal. apply IH. intros c Hc. apply Hhost. now right.
Qed.

End HostPartFacts.

(** X5: [discoverGenericIPv4] dials [controller:port] over UDP and returns
    the text of the local address up to its first colon.  It returns no
    error exactly when the dial gives a local address; the address it
    returns never holds a colon; for a local address [host:port] whose host
    holds no colon it is [host].  (For a bracketed IPv6 local address the
    first colon is inside the host, and the result is cut there.) *)
Theorem discoverGenericIPv4_host_part :
  forall (n : Apex.Network) (controller port : string),
    (snd (Apex.discoverGenericIPv4 n controller port) = None
     <-> exists ipAddress,
           Apex.dialUDP n (controller ++ ":" ++ port) = (Some ipAddress, None))
    /\ (forall c,
          In c (list_ascii_of_string (fst (Apex.discoverGenericIPv4 n controller port))) ->
          c <> ":"%char)
    /\ (forall host localPort,
          Apex.dialUDP n (controller ++ ":" ++ port)
            = (Some (host ++ ":" ++ localPort), None) ->
          (forall c, In c (list_ascii_of_string host) -> c <> ":"%char) ->
          Apex.discoverGenericIPv4 n controller port = (host, None))
    /\ (forall inner localPort,
          Apex.dialUDP n (controller ++ ":" ++ port)
            = (Some ("[" ++ inner ++ "]:" ++ localPort), None) ->
          (exists c, In c (list_ascii_of_string inner) /\ c = ":"%char) ->
          exists cut, Apex.discoverGenericIPv4 n controller port = ("[" ++ cut, None)
                      /\ String.length cut < String.length inner).
Proof.
  intros n controller port. unfold Apex.discoverGenericIPv4.
  destruct (Apex.dialUDP n (controller ++ ":" ++ port)) as [[addr|] [e|]]; simpl.
  - split; [split; [discriminate|intros [a Ha]; discriminate Ha]|].
    split; [tauto|]. split; intros; discriminate.
  - split; [split; [intros _; now exists addr|reflexivity]|].
    split; [apply beforeColon_no_colon|]. split.
    + intros host localPort Hdial Hhost. injection Hdial as ->.
      now rewrite beforeColon_host_port.
    + intros inner localPort Hdial [c [Hin ->]]. injection Hdial as ->.
      simpl. exists (Apex.beforeColon (inner ++ "]:" ++ localPort)).
      split; [reflexivity|].
      clear -Hin. induction inner as [|a inner IH]; simpl in *; [tauto|].
      destruct (Ascii.eqb_spec a ":"%char) as [->|Hne]; simpl; [lia|].
      destruct Hin as [Ha|Hin]; [congruence|]. specialize (IH Hin). lia.
  - split; [split; [discriminate|intros [a Ha]; discriminate Ha]|].
    split; [tauto|]. split; intros; discriminate.
  - split; [split; [discriminate|intros [a Ha]; discriminate Ha]|].
    split; [tauto|]. split; intros; discriminate.
Qed.

Lemma discoverGenericIPv4_host_part_witness :
  Apex.discoverGenericIPv4 (Scenarios.stunAnswers []) "controller" "443"
  = ("192.0.2.10", None).
Proof.
  refine (proj1 (proj2 (proj2 (discoverGenericIPv4_host_part
                                 (Scenarios.stunAnswers []) "controller" "443")))
            "192.0.2.10" "41641" eq_refl _).
  intros c Hc. simpl in Hc.
  repeat (destruct Hc as [<-|Hc]; [discriminate|]). contradiction.
Defined.

(** A link-local IPv6 source address is cut at its first colon. *)
Example discoverGenericIPv4_ipv6_local_address :
  Apex.discoverGenericIPv4
    {| Apex.dialUDP := fun _ => (Some "[fe80::1%eth0]:41641", None);
       Apex.linuxAddress := fun _ => ([], None);
       Apex.stunDial := None; Apex.stunEvent := None; Apex.stunDo := None |}
    "controller" "443"
  = ("[fe80", None).
Proof. reflexivity. Qed.

(** X6: [OperatingSystem.String] names the three constants in lower case
    and gives "unsupported" for every other value; it is one-to-one on the
    constants, and since no name it returns is itself a constant, applying
    it to one of its own results gives "unsupported". *)
Theorem OperatingSystem_String_names :
  forall os : Apex.OperatingSystem,
    (Apex.OperatingSystem_String os = "linux" <-> os = Apex.Linux)
    /\ (Apex.OperatingSystem_String os = "darwin" <-> os = Apex.Darwin)
    /\ (Apex.OperatingSystem_String os = "windows" <-> os = Apex.Windows)
    /\ (Apex.OperatingSystem_String os = "unsupported"
        <-> os <> Apex.Linux /\ os <> Apex.Darwin /\ os <> Apex.Windows)
    /\ Apex.OperatingSystem_String (Apex.OperatingSystem_String os) = "unsupported".
Proof.
  intros os. unfold Apex.OperatingSystem_String.
  destruct (String.eqb_spec os Apex.Linux) as [->|Hl].
  { repeat split; try reflexivity; try discriminate; intros; intuition congruence. }
  destruct (String.eqb_spec os Apex.Darwin) as [->|Hd].
  { repeat split; try reflexivity; try discriminate; intros; intuition congruence. }
  destruct (String.eqb_spec os Apex.Windows) as [->|Hw].
  { repeat split; try reflexivity; try discriminate; intros; intuition congruence. }
  repeat split; try reflexivity; try discriminate; intros; intuition congruence.
Qed.

(** ** Prefix classifiers and [AppendPrefixMask] *)

(** X7: unlike the address classifiers, the prefix classifiers reject what
    does not parse: [IsIPv4Prefix] and [IsIPv6Prefix] are both false for a
    text [net.ParseCIDR] rejects, exactly one of them is true for a text it
    accepts, and [ValidateCIDR] returns nil exactly when one of them is
    true. *)
Theorem prefix_classifiers_validate :
  forall (ParseCIDR : string -> (IPUtils.IP * IPUtils.IPNet) + error) (prefix : string),
    (IPUtils.IsIPv4Prefix ParseCIDR prefix && IPUtils.IsIPv6Prefix ParseCIDR prefix = false)
    /\ ((exists err, ParseCIDR prefix = inr err)
        <-> IPUtils.IsIPv4Prefix ParseCIDR prefix = false
            /\ IPUtils.IsIPv6Prefix ParseCIDR prefix = false)
    /\ (Apex.ValidateCIDR ParseCIDR prefix = None
        <-> IPUtils.IsIPv4Prefix ParseCIDR prefix || IPUtils.IsIPv6Prefix ParseCIDR prefix
            = true).
Proof.
  intros ParseCIDR prefix.
  unfold IPUtils.IsIPv4Prefix, IPUtils.IsIPv6Prefix, Apex.ValidateCIDR.
  destruct (ParseCIDR prefix) as [[ip ipNet]|err].
  - destruct (IPUtils.isNil (IPUtils.To4 (IPUtils.IPNet_IP ipNet))); simpl;
      (split; [reflexivity|]); (split; [|tauto]);
      (split; [intros [err Herr]; discriminate Herr|intros [H4 H6]; discriminate]).
  - simpl. split; [reflexivity|]. split.
    + split; [tauto|intros _; now exists err].
    + split; discriminate.
Qed.

Example prefix_classifiers_on_test_prefixes :
  IPUtils.IsIPv4Prefix Scenarios.parseTwoCIDR "192.168.100.0/24" = true
  /\ IPUtils.IsIPv6Prefix Scenarios.parseTwoCIDR "2001:db8::/32" = true
  /\ IPUtils.IsIPv4Prefix Scenarios.parseTwoCIDR "100.100.0/16" = false
  /\ IPUtils.IsIPv6Prefix Scenarios.parseTwoCIDR "100.100.0/16" = false.
Proof. repeat split. Qed.

Section MaskFacts.

Import IPUtils.

(** [To4] returns nil or four bytes. *)
Lemma To4_length (ip : IP) : To4 ip <> [] -> length (To4 ip) = 4.
Proof.
  unfold To4.
  destruct (Nat.eqb_spec (length ip) IPv4len) as [H4|_]; [intros _; exact H4|].
  destruct (_ && _) eqn:Hmapped; [|congruence].
  intros _. apply andb_true_iff in Hmapped. destruct Hmapped as [Hmapped _].
  apply andb_true_iff in Hmapped. destruct Hmapped as [Hmapped _].
  apply andb_true_iff in Hmapped. destruct Hmapped as [Hlen _].
  apply Nat.eqb_eq in Hlen. unfold IPv6len in Hlen.
  rewrite length_take, length_drop. lia.
Qed.

(** A mask made by [CIDRMask] has the length asked for, and
    [simpleMaskLength] reads the number of ones back. *)
Lemma simpleMaskLength_CIDRMask (ones bits : Z) :
  bits = 32%Z \/ bits = 128%Z -> (0 <= ones <= bits)%Z ->
  simpleMaskLength (CIDRMask ones bits) = ones
  /\ length (CIDRMask ones bits) = Z.to_nat (bits / 8).
Proof.
  intros Hbits Hones.
  assert (Hall : forall b, b = 32%Z \/ b = 128%Z ->
            forallb (fun k =>
                       (simpleMaskLength (CIDRMask (Z.of_nat k) b) =? Z.of_nat k)%Z
                       && Nat.eqb (length (CIDRMask (Z.of_nat k) b)) (Z.to_nat (b / 8)))
                    (seq 0 (S (Z.to_nat b))) = true).
  { intros b [-> | ->]; vm_compute; reflexivity. }
  specialize (Hall bits Hbits). rewrite forallb_forall in Hall.
  specialize (Hall (Z.to_nat ones)).
  rewrite Z2Nat.id in Hall by lia.
  assert (Hin : In (Z.to_nat ones) (seq 0 (S (Z.to_nat bits)))).
  { apply in_seq. lia. }
  apply Hall in Hin. apply andb_true_iff in Hin. destruct Hin as [Hlen Hsize].
  split; [now apply Z.eqb_eq|now apply Nat.eqb_eq].
Qed.

End MaskFacts.

(** X8: [AppendPrefixMask] fails in two cases only: the text is not an IP
    address, or the mask size is above the width of the address (32 for an
    address with an IPv4 form, 128 otherwise).  The result is then empty; a
    negative mask size is not among the failures. *)
Theorem AppendPrefixMask_failures :
  forall (parseIPv4 : string -> option IPUtils.IP)
         (parseIPv6 : string -> option (IPUtils.IP * string))
         (IPString : IPUtils.IP -> string) (IPMaskString : IPUtils.IPMask -> string)
         (ipStr : string) (maskSize : Z),
    let ip := IPUtils.ParseIP parseIPv4 parseIPv6 ipStr in
    let width := if IPUtils.isNil (IPUtils.To4 ip) then 128%Z else 32%Z in
    let r := IPUtils.AppendPrefixMask parseIPv4 parseIPv6 IPString IPMaskString
               ipStr maskSize in
    (snd r <> None <-> ip = [] \/ (width < maskSize)%Z)
    /\ (snd r <> None -> fst r = "")
    /\ (ip = [] ->
          r = ("", Some (errorString ("invalid IP address: " ++ ipStr)))).
Proof.
  intros p4 p6 IPString IPMaskString ipStr maskSize. cbv zeta.
  unfold IPUtils.AppendPrefixMask.
  destruct (IPUtils.ParseIP p4 p6 ipStr) as [|b ip] eqn:Hip; simpl.
  - repeat split; try discriminate; auto.
  - assert (Hwidth :
      (Z.of_nat (if IPUtils.isNil (IPUtils.To4 (b :: ip))
                 then IPUtils.IPv6len else IPUtils.IPv4len) * 8)%Z
      = if IPUtils.isNil (IPUtils.To4 (b :: ip)) then 128%Z else 32%Z).
    { now destruct (IPUtils.isNil (IPUtils.To4 (b :: ip))). }
    rewrite Hwidth.
    destruct (Z.ltb_spec (if IPUtils.isNil (IPUtils.To4 (b :: ip)) then 128 else 32)%Z
                maskSize) as [Hlt|Hge]; simpl.
    + repeat split; try discriminate; auto.
    + repeat split; try discriminate; try congruence.
      intros [Hnil|Hlt]; [discriminate|lia].
Qed.

Lemma AppendPrefixMask_failures_witness :
  IPUtils.AppendPrefixMask Scenarios.parseOneIPv4 Scenarios.parseOneIPv6
    Scenarios.ipText (fun _ => "") "10.0.0" 24
  = ("", Some (errorString "invalid IP address: 10.0.0")).
Proof.
  pose proof (AppendPrefixMask_failures Scenarios.parseOneIPv4 Scenarios.parseOneIPv6
                Scenarios.ipText (fun _ => "") "10.0.0" 24) as H.
  cbv zeta in H. destruct H as (_ & _ & H). apply H. reflexivity.
Defined.

(** X9: for an address as [net.ParseIP] returns it (sixteen bytes) and a
    mask size between 0 and the width of the address, [AppendPrefixMask]
    returns the address as written, not masked down to its network,
    followed by "/" and the mask size in decimal: the text of the IPv4 form
    for a width of 32, of the address itself for a width of 128. *)
Theorem AppendPrefixMask_valid :
  forall (parseIPv4 : string -> option IPUtils.IP)
         (parseIPv6 : string -> option (IPUtils.IP * string))
         (IPString : IPUtils.IP -> string) (IPMaskString : IPUtils.IPMask -> string)
         (ipStr : string) (maskSize : Z),
    let ip := IPUtils.ParseIP parseIPv4 parseIPv6 ipStr in
    let width := if IPUtils.isNil (IPUtils.To4 ip) then 128%Z else 32%Z in
    length ip = 16 ->
    (0 <= maskSize <= width)%Z ->
    IPUtils.AppendPrefixMask parseIPv4 parseIPv6 IPString IPMaskString ipStr maskSize
    = (IPString (if IPUtils.isNil (IPUtils.To4 ip) then ip else IPUtils.To4 ip)
       ++ "/" ++ IPUtils.itoa maskSize, None).
Proof.
  intros p4 p6 IPString IPMaskString ipStr maskSize. cbv zeta.
  unfold IPUtils.AppendPrefixMask.
  set (ip := IPUtils.ParseIP p4 p6 ipStr). intros Hlen Hmask.
  destruct ip as [|b0 ip'] eqn:Hip; [discriminate Hlen|]. simpl IPUtils.isNil at 1.
  cbv iota. rewrite <- Hip in *. clear Hip b0 ip'.
  destruct (IPUtils.isNil (IPUtils.To4 ip)) eqn:Hv4.
  - (* no IPv4 form: sixteen bytes and a 128-bit mask *)
    change (Z.of_nat IPUtils.IPv6len * 8)%Z with 128%Z.
    destruct (Z.ltb_spec 128 maskSize) as [Hlt|_]; [lia|].
    destruct (simpleMaskLength_CIDRMask maskSize 128 (or_intror eq_refl) Hmask)
      as [Hones Hsize].
    unfold IPUtils.IPNet_String, IPUtils.networkNumberAndMask. simpl.
    rewrite Hv4, Hlen, Hsize. simpl.
    destruct ip as [|b ip']; [discriminate Hlen|]. simpl.
    destruct (IPUtils.CIDRMask maskSize 128) as [|m0 m'] eqn:Hm; [discriminate Hsize|].
    rewrite Hones.
    destruct (Z.eqb_spec maskSize (-1)) as [Hneg|_]; [lia|reflexivity].
  - (* an IPv4 form: four bytes and a 32-bit mask *)
    change (Z.of_nat IPUtils.IPv4len * 8)%Z with 32%Z.
    destruct (Z.ltb_spec 32 maskSize) as [Hlt|_]; [lia|].
    destruct (simpleMaskLength_CIDRMask maskSize 32 (or_introl eq_refl) Hmask)
      as [Hones Hsize].
    assert (Hfour : length (IPUtils.To4 ip) = 4).
    { apply To4_length. intros Hnil. rewrite Hnil in Hv4. discriminate Hv4. }
    unfold IPUtils.IPNet_String, IPUtils.networkNumberAndMask. simpl.
    rewrite Hv4, Hsize, Hfour. simpl.
    destruct (IPUtils.To4 ip) as [|b ip4]; [discriminate Hfour|]. simpl.
    destruct (IPUtils.CIDRMask maskSize 32) as [|m0 m'] eqn:Hm; [discriminate Hsize|].
    rewrite Hones.
    destruct (Z.eqb_spec maskSize (-1)) as [Hneg|_]; [lia|reflexivity].
Qed.

Lemma AppendPrefixMask_valid_witness :
  IPUtils.AppendPrefixMask Scenarios.parseOneIPv4 Scenarios.parseOneIPv6
    Scenarios.ipText (fun _ => "") "10.0.0.1" 8
  = ("10.0.0.1/8", None).
Proof.
  refine (AppendPrefixMask_valid Scenarios.parseOneIPv4 Scenarios.parseOneIPv6
            Scenarios.ipText (fun _ => "") "10.0.0.1" 8 _ _).
  - reflexivity.
  - simpl. lia.
Defined.

(** X10: a negative mask size is not refused.  For every text that parses
    as an address and every negative mask size, [AppendPrefixMask] returns
    the text "<nil>" with a nil error. *)
Theorem AppendPrefixMask_negative_mask :
  forall (parseIPv4 : string -> option IPUtils.IP)
         (parseIPv6 : string -> option (IPUtils.IP * string))
         (IPString : IPUtils.IP -> string) (IPMaskString : IPUtils.IPMask -> string)
         (ipStr : string) (maskSize : Z),
    IPUtils.ParseIP parseIPv4 parseIPv6 ipStr <> [] ->
    (maskSize < 0)%Z ->
    IPUtils.AppendPrefixMask parseIPv4 parseIPv6 IPString IPMaskString ipStr maskSize
    = ("<nil>", None).
Proof.
  intros p4 p6 IPString IPMaskString ipStr maskSize Hip Hneg.
  unfold IPUtils.AppendPrefixMask.
  destruct (IPUtils.ParseIP p4 p6 ipStr) as [|b0 ip'] eqn:Hparse; [congruence|].
  simpl IPUtils.isNil at 1. cbv iota.
  assert (Hmask : forall bits, IPUtils.CIDRMask maskSize bits = []).
  { intros bits. unfold IPUtils.CIDRMask.
    destruct (_ && _); [reflexivity|].
    destruct (Z.ltb_spec maskSize 0) as [_|Hge]; [reflexivity|lia]. }
  destruct (Z.ltb_spec
              (Z.of_nat (if IPUtils.isNil (IPUtils.To4 (b0 :: ip'))
                         then IPUtils.IPv6len else IPUtils.IPv4len) * 8) maskSize)
    as [Hlt|_].
  { destruct (IPUtils.isNil (IPUtils.To4 (b0 :: ip')));
      unfold IPUtils.IPv6len, IPUtils.IPv4len in Hlt; lia. }
  rewrite Hmask.
  unfold IPUtils.IPNet_String, IPUtils.networkNumberAndMask. simpl IPUtils.IPNet_Mask.
  simpl IPUtils.IPNet_IP.
  destruct (IPUtils.isNil (IPUtils.To4 (b0 :: ip'))
            && negb (Nat.eqb (length (b0 :: ip')) IPUtils.IPv6len)); reflexivity.
Qed.

Lemma AppendPrefixMask_negative_mask_witness :
  IPUtils.AppendPrefixMask Scenarios.parseOneIPv4 Scenarios.parseOneIPv6
    Scenarios.ipText (fun _ => "") "2001:db8::1" (-1)
  = ("<nil>", None).
Proof.
  apply (AppendPrefixMask_negative_mask Scenarios.parseOneIPv4 Scenarios.parseOneIPv6
           Scenarios.ipText (fun _ => "") "2001:db8::1" (-1)).
  - discriminate.
  - lia.
Defined.

(** ** Validation, files and interfaces *)

(** X11: a text that [ValidateIp] rejects is rejected by [AppendPrefixMask]
    too, yet [IsIPv6Address] classifies it as an IPv6 address; a text that
    [ValidateIp] accepts is classified as exactly one of the two families
    and is refused by [AppendPrefixMask] only for its mask size. *)
Theorem ValidateIp_and_classifiers :
  forall (parseIPv4 : string -> option IPUtils.IP)
         (parseIPv6 : string -> option (IPUtils.IP * string))
         (IPString : IPUtils.IP -> string) (IPMaskString : IPUtils.IPMask -> string)
         (ip : string) (maskSize : Z),
    (Apex.ValidateIp parseIPv4 parseIPv6 ip <> None ->
       IPUtils.IsIPv6Address parseIPv4 parseIPv6 ip = true
       /\ IPUtils.IsIPv4Address parseIPv4 parseIPv6 ip = false
       /\ IPUtils.AppendPrefixMask parseIPv4 parseIPv6 IPString IPMaskString ip maskSize
          = ("", Some (errorString ("invalid IP address: " ++ ip))))
    /\ (Apex.ValidateIp parseIPv4 parseIPv6 ip = None ->
          IPUtils.IsIPv6Address parseIPv4 parseIPv6 ip
            = negb (IPUtils.IsIPv4Address parseIPv4 parseIPv6 ip)
          /\ ((maskSize <= 32)%Z ->
                snd (IPUtils.AppendPrefixMask parseIPv4 parseIPv6 IPString IPMaskString
                       ip maskSize) = None)).
Proof.
  intros p4 p6 IPString IPMaskString ip maskSize.
  unfold Apex.ValidateIp, IPUtils.IsIPv6Address, IPUtils.IsIPv4Address,
    IPUtils.AppendPrefixMask.
  destruct (IPUtils.ParseIP p4 p6 ip) as [|b bytes]; simpl.
  - split; [intros _; repeat split|intros H; discriminate H].
  - split; [intros H; congruence|]. intros _.
    split; [now rewrite negb_involutive|]. intros Hmask.
    destruct (Z.ltb_spec
                (Z.of_nat (if IPUtils.isNil (IPUtils.To4 (b :: bytes))
                           then IPUtils.IPv6len else IPUtils.IPv4len) * 8) maskSize)
      as [Hlt|_]; [|reflexivity].
    destruct (IPUtils.isNil (IPUtils.To4 (b :: bytes)));
      unfold IPUtils.IPv6len, IPUtils.IPv4len in Hlt; lia.
Qed.

Lemma ValidateIp_and_classifiers_witness :
  IPUtils.IsIPv6Address Scenarios.parseOneIPv4 Scenarios.parseOneIPv6 "10.0.0.256" = true
  /\ IPUtils.IsIPv4Address Scenarios.parseOneIPv4 Scenarios.parseOneIPv6 "10.0.0.256" = false
  /\ IPUtils.AppendPrefixMask Scenarios.parseOneIPv4 Scenarios.parseOneIPv6
       Scenarios.ipText (fun _ => "") "10.0.0.256" 24
     = ("", Some (errorString "invalid IP address: 10.0.0.256")).
Proof.
  apply (proj1 (ValidateIp_and_classifiers Scenarios.parseOneIPv4 Scenarios.parseOneIPv6
                  Scenarios.ipText (fun _ => "") "10.0.0.256" 24)).
  discriminate.
Defined.

(** X12: [CreateDirectory] returns an error only when [os.Stat] reports the
    path as missing and [os.MkdirAll] then fails, and the error it returns
    wraps nothing.  A path that exists, and a path whose [os.Stat] fails for
    another reason, are left alone with a nil error. *)
Theorem CreateDirectory_outcomes :
  forall (FS : Type) (Stat : FS -> string -> option error)
         (IsNotExist : error -> bool) (MkdirAll : FS -> string -> FS * option error)
         (fs : FS) (path : string),
    let r := Apex.CreateDirectory FS Stat IsNotExist MkdirAll fs path in
    (snd r <> None
     <-> exists e e', Stat fs path = Some e /\ IsNotExist e = true
                      /\ snd (MkdirAll fs path) = Some e')
    /\ (forall e, snd r = Some e -> rootCause e = e)
    /\ (Apex.FileExists FS Stat fs path = true -> r = (fs, None))
    /\ (forall e, Stat fs path = Some e -> IsNotExist e = false -> r = (fs, None))
    /\ (forall e, Stat fs path = Some e -> IsNotExist e = true ->
          fst r = fst (MkdirAll fs path)).
Proof.
  intros FS Stat IsNotExist MkdirAll fs path. cbv zeta.
  unfold Apex.CreateDirectory, Apex.FileExists.
  destruct (Stat fs path) as [e|] eqn:Hstat.
  - destruct (IsNotExist e) eqn:Hmissing.
    + destruct (MkdirAll fs path) as [fs' [e'|]] eqn:Hmk; simpl.
      * split; [split; [intros _; exists e, e'; auto|discriminate]|].
        split; [intros e0 He0; injection He0 as <-; reflexivity|].
        split; [discriminate|]. split; [intros e0 He0; congruence|reflexivity].
      * split; [split; [congruence|intros (e1 & e2 & _ & _ & H); discriminate H]|].
        split; [discriminate|].
        split; [discriminate|]. split; [intros e0 He0; congruence|reflexivity].
    + simpl. split; [split; [congruence|intros (e1 & e2 & H1 & H2 & _); congruence]|].
      split; [discriminate|]. split; [discriminate|].
      split; [reflexivity|intros e0 He0; congruence].
  - simpl. split; [split; [congruence|intros (e1 & e2 & H1 & _); discriminate H1]|].
    split; [discriminate|]. split; [reflexivity|]. split; intros e0 He0; discriminate He0.
Qed.

Lemma CreateDirectory_outcomes_witness :
  Apex.CreateDirectory (list string) Scenarios.statIn Scenarios.isMissing
    Scenarios.mkdirIn ["/etc"] "/etc"
  = (["/etc"], None).
Proof.
  pose proof (CreateDirectory_outcomes (list string) Scenarios.statIn Scenarios.isMissing
                Scenarios.mkdirIn ["/etc"] "/etc") as H.
  cbv zeta in H. destruct H as (_ & _ & H & _). apply H. reflexivity.
Defined.

Section InterfaceFacts.

Import IPUtils Apex.

Variable ParseCIDR : string -> (IP * IPNet) + error.
Variable IPEqual : IP -> IP -> bool.

Lemma rangeAddrsEqual_true (addrs : list Addr) (ip : IP) :
  rangeAddrsEqual ParseCIDR IPEqual addrs ip = true
  <-> exists addr ifaceIP ipNet,
        In addr addrs
        /\ ParseCIDR (Addr_String addr) = inl (ifaceIP, ipNet)
        /\ IPEqual ifaceIP ip = true.
Proof.
  induction addrs as [|addr rest IH]; simpl.
  - split; [discriminate|intros (a & i & m & [] & _)].
  - destruct (ParseCIDR (Addr_String addr)) as [[ifaceIP ipNet]|err] eqn:Hparse.
    + destruct (IPEqual ifaceIP ip) eqn:Heq.
      * split; [intros _; exists addr, ifaceIP, ipNet; auto|reflexivity].
      * rewrite IH. split.
        -- intros (a & i & m & Hin & Hp & He). exists a, i, m. auto.
        -- intros (a & i & m & [<-|Hin] & Hp & He); [congruence|].
           exists a, i, m. auto.
    + rewrite IH. split.
      * intros (a & i & m & Hin & Hp & He). exists a, i, m. auto.
      * intros (a & i & m & [<-|Hin] & Hp & He); [congruence|].
        exists a, i, m. auto.
Qed.

Lemma ownsAddress_iff (iface : Interface) (ip : IP) :
  ownsAddress ParseCIDR IPEqual iface ip
  <-> exists addrs, Addrs iface = (addrs, None)
                    /\ rangeAddrsEqual ParseCIDR IPEqual addrs ip = true.
Proof.
  unfold ownsAddress. split.
  - intros (addrs & addr & i & m & Ha & Hin & Hp & He). exists addrs.
    split; [exact Ha|]. apply rangeAddrsEqual_true. exists addr, i, m. auto.
  - intros (addrs & Ha & Hr). apply rangeAddrsEqual_true in Hr.
    destruct Hr as (addr & i & m & Hin & Hp & He). exists addrs, addr, i, m. auto.
Qed.

(** The outer loop returns the name of the first interface that owns the
    address. *)
Lemma rangeInterfacesEqual_first (interfaces : list Interface) (ip : IP) :
  match rangeInterfacesEqual ParseCIDR IPEqual interfaces ip with
  | Some name =>
      exists before iface after,
        interfaces = (before ++ iface :: after)%list
        /\ Name iface = name
        /\ ownsAddress ParseCIDR IPEqual iface ip
        /\ Forall (fun i => ~ ownsAddress ParseCIDR IPEqual i ip) before
  | None => Forall (fun i => ~ ownsAddress ParseCIDR IPEqual i ip) interfaces
  end.
Proof.
  induction interfaces as [|iface rest IH]; simpl; [constructor|].
  destruct (Addrs iface) as [addrs [err|]] eqn:Haddrs.
  - assert (Hnot : ~ ownsAddress ParseCIDR IPEqual iface ip).
    { rewrite ownsAddress_iff. intros (a & Ha & _). congruence. }
    destruct (rangeInterfacesEqual ParseCIDR IPEqual rest ip) as [name|].
    + destruct IH as (before & i & after & -> & Hname & Hown & Hbefore).
      exists (iface :: before), i, after. repeat split; auto.
    + now constructor.
  - destruct (rangeAddrsEqual ParseCIDR IPEqual addrs ip) eqn:Hr.
    + exists [], iface, rest. repeat split; [|constructor].
      apply ownsAddress_iff. now exists addrs.
    + assert (Hnot : ~ ownsAddress ParseCIDR IPEqual iface ip).
      { rewrite ownsAddress_iff. intros (a & Ha & Hr'). congruence. }
      destruct (rangeInterfacesEqual ParseCIDR IPEqual rest ip) as [name|].
      * destruct IH as (before & i & after & -> & Hname & Hown & Hbefore).
        exists (iface :: before), i, after. repeat split; auto.
      * now constructor.
Qed.

Lemma DefaultMask_nil (ip : IP) : isNilMask (DefaultMask ip) = isNil (To4 ip).
Proof.
  unfold DefaultMask. destruct (To4 ip) as [|b rest]; [reflexivity|].
  simpl. now repeat case_match.
Qed.

Lemma rangeAddrsIPv4_spec (addrs : list Addr) :
  match rangeAddrsIPv4 addrs with
  | Some ip =>
      To4 ip <> []
      /\ exists addr ipNet, In addr addrs /\ Addr_IPNet addr = Some ipNet
                            /\ IPNet_IP ipNet = ip
  | None =>
      forall addr ipNet, In addr addrs -> Addr_IPNet addr = Some ipNet ->
                         To4 (IPNet_IP ipNet) = []
  end.
Proof.
  induction addrs as [|addr rest IH]; simpl; [intros a n []|].
  destruct (Addr_IPNet addr) as [ipNet|] eqn:Hnet.
  - rewrite DefaultMask_nil.
    destruct (isNil (To4 (IPNet_IP ipNet))) eqn:Hnil; simpl.
    + destruct (rangeAddrsIPv4 rest) as [ip|].
      * destruct IH as (Hv4 & a & n & Hin & Ha & Hn).
        split; [exact Hv4|]. exists a, n. auto.
      * intros a n [<-|Hin] Ha; [|now apply (IH a n)].
        rewrite Hnet in Ha. injection Ha as <-. now apply isNil_true.
    + split; [intros Hv4; rewrite Hv4 in Hnil; discriminate Hnil|].
      exists addr, ipNet. auto.
  - destruct (rangeAddrsIPv4 rest) as [ip|].
    + destruct IH as (Hv4 & a & n & Hin & Ha & Hn).
      split; [exact Hv4|]. exists a, n. auto.
    + intros a n [<-|Hin] Ha; [congruence|now apply (IH a n)].
Qed.

End InterfaceFacts.

(** X13: [getInterfaceByIP] returns the error of [net.Interfaces] when there
    is one.  Otherwise it returns the name of the first interface, in the
    order of the list, that owns the address (interfaces whose addresses
    cannot be listed and address texts that do not parse are skipped), and
    it returns an error exactly when no interface owns the address. *)
Theorem getInterfaceByIP_first_owner :
  forall (Host : Type) (net_Interfaces : Host -> list Apex.Interface * option error)
         (ParseCIDR : string -> (IPUtils.IP * IPUtils.IPNet) + error)
         (IPEqual : IPUtils.IP -> IPUtils.IP -> bool) (IPString : IPUtils.IP -> string)
         (h : Host) (ip : IPUtils.IP),
    let r := Apex.getInterfaceByIP Host net_Interfaces ParseCIDR IPEqual IPString h ip in
    (forall e, snd (net_Interfaces h) = Some e -> r = ("", Some e))
    /\ (snd (net_Interfaces h) = None ->
          (forall name, r = (name, None) ->
             exists before iface after,
               fst (net_Interfaces h) = (before ++ iface :: after)%list
               /\ Apex.Name iface = name
               /\ Apex.ownsAddress ParseCIDR IPEqual iface ip
               /\ Forall (fun i => ~ Apex.ownsAddress ParseCIDR IPEqual i ip) before)
          /\ (snd r <> None
              <-> Forall (fun i => ~ Apex.ownsAddress ParseCIDR IPEqual i ip)
                         (fst (net_Interfaces h)))).
Proof.
  intros Host net_Interfaces ParseCIDR IPEqual IPString h ip. cbv zeta.
  unfold Apex.getInterfaceByIP.
  destruct (net_Interfaces h) as [interfaces [e|]]; simpl.
  - split; [intros e0 He0; congruence|discriminate].
  - split; [discriminate|]. intros _.
    pose proof (rangeInterfacesEqual_first ParseCIDR IPEqual interfaces ip) as Hfirst.
    destruct (Apex.rangeInterfacesEqual ParseCIDR IPEqual interfaces ip) as [name|]; simpl.
    + split.
      * intros name' Hname. injection Hname as <-. exact Hfirst.
      * split; [congruence|]. intros Hnone.
        destruct Hfirst as (before & iface & after & -> & _ & Hown & _).
        rewrite Forall_app, Forall_cons in Hnone. tauto.
    + split; [discriminate|]. split; [intros _; exact Hfirst|discriminate].
Qed.

Lemma getInterfaceByIP_first_owner_witness :
  exists before iface after,
    Scenarios.hostInterfaces = (before ++ iface :: after)%list
    /\ Apex.Name iface = "wg0"
    /\ Apex.ownsAddress Scenarios.parseHostCIDR Scenarios.bytesEqual iface
         [x64; x40; x00; x01]
    /\ Forall (fun i => ~ Apex.ownsAddress Scenarios.parseHostCIDR Scenarios.bytesEqual i
                          [x64; x40; x00; x01]) before.
Proof.
  pose proof (getInterfaceByIP_first_owner unit (fun _ => (Scenarios.hostInterfaces, None))
                Scenarios.parseHostCIDR Scenarios.bytesEqual Scenarios.ipText
                tt [x64; x40; x00; x01]) as H.
  cbv zeta in H. destruct H as (_ & H). destruct (H eq_refl) as (Hname & _).
  apply (Hname "wg0"). reflexivity.
Defined.

(** X14: [getIPv4Iface] returns nil or an address that has an IPv4 form and
    is an [*net.IPNet] address of an interface with the given name; it
    returns nil when no interface has that name, and an address whenever an
    interface with that name lists, without error, an [*net.IPNet] address
    with an IPv4 form. *)
Theorem getIPv4Iface_address_of_interface :
  forall (Host : Type) (net_Interfaces : Host -> list Apex.Interface * option error)
         (h : Host) (ifname : string),
    let ip := Apex.getIPv4Iface Host net_Interfaces h ifname in
    (ip <> [] ->
       IPUtils.To4 ip <> []
       /\ exists inter addrs addr ipNet,
            In inter (fst (net_Interfaces h))
            /\ Apex.Name inter = ifname
            /\ Apex.Addrs inter = (addrs, None)
            /\ In addr addrs
            /\ Apex.Addr_IPNet addr = Some ipNet
            /\ IPUtils.IPNet_IP ipNet = ip)
    /\ (Forall (fun inter => Apex.Name inter <> ifname) (fst (net_Interfaces h)) ->
          ip = [])
    /\ (forall inter addrs addr ipNet,
          In inter (fst (net_Interfaces h)) ->
          Apex.Name inter = ifname ->
          Apex.Addrs inter = (addrs, None) ->
          In addr addrs ->
          Apex.Addr_IPNet addr = Some ipNet ->
          IPUtils.To4 (IPUtils.IPNet_IP ipNet) <> [] ->
          ip <> []).
Proof.
  intros Host net_Interfaces h ifname. cbv zeta. unfold Apex.getIPv4Iface.
  generalize (fst (net_Interfaces h)). intros interfaces.
  assert (Hloop :
    match Apex.rangeInterfacesIPv4 interfaces ifname with
    | Some ip =>
        IPUtils.To4 ip <> []
        /\ exists inter addrs addr ipNet,
             In inter interfaces /\ Apex.Name inter = ifname
             /\ Apex.Addrs inter = (addrs, None) /\ In addr addrs
             /\ Apex.Addr_IPNet addr = Some ipNet /\ IPUtils.IPNet_IP ipNet = ip
    | None =>
        forall inter addrs addr ipNet,
          In inter interfaces -> Apex.Name inter = ifname ->
          Apex.Addrs inter = (addrs, None) -> In addr addrs ->
          Apex.Addr_IPNet addr = Some ipNet ->
          IPUtils.To4 (IPUtils.IPNet_IP ipNet) = []
    end).
  { induction interfaces as [|inter rest IH]; simpl; [intros i a d n []|].
    assert (Hrest :
      match Apex.rangeInterfacesIPv4 rest ifname with
      | Some ip =>
          IPUtils.To4 ip <> []
          /\ exists inter0 addrs addr ipNet,
               (inter = inter0 \/ In inter0 rest) /\ Apex.Name inter0 = ifname
               /\ Apex.Addrs inter0 = (addrs, None) /\ In addr addrs
               /\ Apex.Addr_IPNet addr = Some ipNet /\ IPUtils.IPNet_IP ipNet = ip
      | None => True
      end).
    { destruct (Apex.rangeInterfacesIPv4 rest ifname) as [ip|]; [|exact I].
      destruct IH as (Hv4 & i & a & d & n & Hin & H).
      split; [exact Hv4|]. exists i, a, d, n. tauto. }
    destruct (String.eqb_spec (Apex.Name inter) ifname) as [Hname|Hname].
    - destruct (Apex.Addrs inter) as [addrs [err|]] eqn:Haddrs.
      + destruct (Apex.rangeInterfacesIPv4 rest ifname) as [ip|]; [exact Hrest|].
        intros i a d n [<-|Hin] Hn Ha; [congruence|now apply (IH i a d n)].
      + pose proof (rangeAddrsIPv4_spec addrs) as Haddr.
        destruct (Apex.rangeAddrsIPv4 addrs) as [ip|].
        * destruct Haddr as (Hv4 & d & n & Hin & Hd & Hn).
          split; [exact Hv4|]. exists inter, addrs, d, n. tauto.
        * destruct (Apex.rangeInterfacesIPv4 rest ifname) as [ip|]; [exact Hrest|].
          intros i a d n [<-|Hin] Hn Ha Hd Hnet; [|now apply (IH i a d n)].
          rewrite Haddrs in Ha. injection Ha as <-. now apply (Haddr d n).
    - destruct (Apex.rangeInterfacesIPv4 rest ifname) as [ip|]; [exact Hrest|].
      intros i a d n [<-|Hin] Hn; [congruence|now apply (IH i a d n)]. }
  destruct (Apex.rangeInterfacesIPv4 interfaces ifname) as [ip|].
  - destruct Hloop as (Hv4 & inter & addrs & addr & ipNet & Hin & Hname & Hrest).
    split; [intros _; split; [exact Hv4|]; exists inter, addrs, addr, ipNet; tauto|].
    split.
    + intros Hnone. rewrite List.Forall_forall in Hnone.
      now destruct (Hnone inter Hin).
    + intros _ _ _ _ _ _ _ _ _ _ Hnil. rewrite Hnil in Hv4. now apply Hv4.
  - split; [congruence|]. split; [reflexivity|].
    intros inter addrs addr ipNet Hin Hname Ha Hd Hn Hv4 _.
    apply Hv4. now apply (Hloop inter addrs addr ipNet).
Qed.

Lemma getIPv4Iface_address_of_interface_witness :
  Apex.getIPv4Iface unit (fun _ => (Scenarios.hostInterfaces, None)) tt "eth1" = [].
Proof.
  pose proof (getIPv4Iface_address_of_interface unit
                (fun _ => (Scenarios.hostInterfaces, None)) tt "eth1") as H.
  cbv zeta in H. destruct H as (_ & H & _). apply H.
  simpl. repeat constructor; discriminate.
Defined.

(** ** Interface setup commands *)

(** Unfolds a setup routine run over a log-keeping command runner and
    splits on the outcome of each command in turn. *)
Ltac run_commands exec :=
  unfold Apex.RunCommand, Apex.recordingExec; simpl;
  repeat match goal with
         | |- context [exec ?h ?name ?args] =>
             destruct (exec h name args) as [? [? [?|]]]; simpl
         end.

(** X15: [setupDarwinIface] never fails and never stops early: whatever the
    commands return, it runs the same four commands in the same order
    (create the interface, give it its address, bring it up, set the private
    key) and returns nil.  Keeping the log does not change the host it
    leaves. *)
Theorem setupDarwinIface_runs_all_commands :
  forall (Host : Type)
         (exec : Host -> string -> list string -> Host * (string * option error))
         (Quote : string -> string) (darwinIface darwinPrivateKeyFile : string)
         (h : Host) (localAddress : string),
    let r := Apex.setupDarwinIface (Apex.CommandLog * Host) (Apex.recordingExec exec)
               Quote darwinIface darwinPrivateKeyFile ([], h) localAddress in
    snd r = None
    /\ map fst (fst (fst r))
       = [ ["wireguard-go"; darwinIface];
           ["ifconfig"; darwinIface; "inet"; localAddress; localAddress; "alias"];
           ["ifconfig"; darwinIface; "up"];
           ["wg"; "set"; darwinIface; "private-key"; darwinPrivateKeyFile] ]
    /\ snd (fst r)
       = fst (Apex.setupDarwinIface Host exec Quote darwinIface darwinPrivateKeyFile
                h localAddress).
Proof.
  intros Host exec Quote darwinIface key h localAddress. cbv zeta.
  unfold Apex.setupDarwinIface.
  run_commands exec.
  all: repeat split.
Qed.

(** With every command failing, the four commands are still run. *)
Example setupDarwinIface_all_commands_fail :
  Apex.setupDarwinIface (Apex.CommandLog * unit)
    (Apex.recordingExec (fun h _ _ => (h, ("", Some (errorString "exit status 1")))))
    (fun s => s) "utun8" "/etc/wireguard/private.key" ([], tt) "100.64.0.1"
  = (([ (["wireguard-go"; "utun8"], Some (errorString "exit status 1"));
        (["ifconfig"; "utun8"; "inet"; "100.64.0.1"; "100.64.0.1"; "alias"],
         Some (errorString "exit status 1"));
        (["ifconfig"; "utun8"; "up"], Some (errorString "exit status 1"));
        (["wg"; "set"; "utun8"; "private-key"; "/etc/wireguard/private.key"],
         Some (errorString "exit status 1")) ], tt), None).
Proof. reflexivity. Qed.


(** A node whose interface still holds a stale address: the first
    [ip address add] fails, the stale address is deleted, and the second
    [ip address add] is the one that succeeds. *)
Example setupLinuxInterface_replaces_stale_address :
  map fst
    (fst (Apex.setupLinuxInterface (Apex.CommandLog * bool)
            (fun st => Scenarios.staleInterfaces (snd st))
            (fun _ _ => None)
            Scenarios.ipText (Apex.recordingExec Scenarios.ipTool) (fun s => s)
            "wg0" "/etc/wireguard/private.key" 51820
            {| Apex.hubRouter := false; Apex.listenPort := 40001;
               Apex.wgLocalAddress := "100.64.0.1" |}
            ([], true)))
  = [ ["ip"; "link"; "del"; "wg0"];
      ["ip"; "link"; "add"; "wg0"; "type"; "wireguard"];
      ["wg"; "set"; "wg0"; "listen-port"; "40001"; "private-key";
       "/etc/wireguard/private.key"];
      ["ip"; "address"; "add"; "100.64.0.1"; "dev"; "wg0"];
      ["ip"; "address"; "del"; "100.64.0.9"; "dev"; "wg0"];
      ["ip"; "address"; "add"; "100.64.0.1"; "dev"; "wg0"];
      ["ip"; "link"; "set"; "wg0"; "up"] ].
Proof. reflexivity. Qed.

(** ** Darwin links and IPv6 support *)

Section DarwinFacts.

Import Darwin.

Lemma prefix_app (p s : string) :
  String.prefix p s = true <-> exists rest, s = p ++ rest.
Proof.
  revert s. induction p as [|a p IH]; intros s; simpl.
  - split; [intros _; now exists s|intros _; now destruct s].
  - destruct s as [|b s]; simpl.
    + split; [discriminate|intros [rest H]; discriminate H].
    + destruct (Ascii.ascii_dec a b) as [->|Hne].
      * rewrite IH. split; intros [rest H]; exists rest.
        -- change (String b s = String b (p ++ rest)). now f_equal.
        -- change (String b s = String b (p ++ rest)) in H. now injection H.
      * split; [discriminate|]. intros [rest H].
        change (String b s = String a (p ++ rest)) in H. congruence.
Qed.

(** [Contains s substr] holds exactly when [substr] occurs in [s]. *)
Lemma Contains_occurs (s substr : string) :
  Contains s substr = true <-> exists before after, s = before ++ substr ++ after.
Proof.
  induction s as [|a s IH].
  - change (Contains "" substr)
      with (if String.prefix substr "" then true else false).
    destruct (String.prefix substr "") eqn:Hp.
    + split; [intros _|reflexivity]. apply prefix_app in Hp.
      destruct Hp as [rest Hrest]. now exists "", rest.
    + split; [discriminate|]. intros ([|b before] & after & H).
      * assert (Hp' : String.prefix substr "" = true)
          by (apply prefix_app; now exists after).
        congruence.
      * change ("" = String b (before ++ substr ++ after)) in H. discriminate H.
  - change (Contains (String a s) substr)
      with (if String.prefix substr (String a s) then true else Contains s substr).
    destruct (String.prefix substr (String a s)) eqn:Hp.
    + split; [intros _|reflexivity]. apply prefix_app in Hp.
      destruct Hp as [rest Hrest]. now exists "", rest.
    + rewrite IH. split.
      * intros (before & after & ->). now exists (String a before), after.
      * intros ([|b before] & after & H).
        -- assert (Hp' : String.prefix substr (String a s) = true)
             by (apply prefix_app; now exists after).
           congruence.
        -- change (String a s = String b (before ++ substr ++ after)) in H.
           injection H as _ ->. now exists before, after.
Qed.

End DarwinFacts.

(** X17: [delLink] is harmless on a link that does not exist: when
    [linkExists] is false it leaves the host as it is, calls no deletion
    and returns nil.  It returns an error exactly when the link exists and
    [netlink.LinkDel] fails, and that error is the one of [LinkDel]. *)
Theorem delLink_missing_link :
  forall (Host Link : Type) (LinkByName : Host -> string -> Link + error)
         (LinkDel : Host -> Link -> Host * option error)
         (h : Host) (ifaceName : string),
    (Darwin.linkExists Host Link LinkByName h ifaceName = false ->
       Darwin.delLink Host Link LinkByName LinkDel h ifaceName = (h, None))
    /\ (forall e,
          snd (Darwin.delLink Host Link LinkByName LinkDel h ifaceName) = Some e
          <-> exists link, LinkByName h ifaceName = inl link
                           /\ snd (LinkDel h link) = Some e)
    /\ (forall link, LinkByName h ifaceName = inl link ->
          fst (Darwin.delLink Host Link LinkByName LinkDel h ifaceName)
            = fst (LinkDel h link)).
Proof.
  intros Host Link LinkByName LinkDel h ifaceName.
  unfold Darwin.linkExists, Darwin.delLink.
  destruct (LinkByName h ifaceName) as [link|err].
  - split; [discriminate|].
    destruct (LinkDel h link) as [h' [e'|]] eqn:Hdel; simpl.
    + split.
      * intros e. split.
        -- intros He. exists link. rewrite Hdel. auto.
        -- intros (l & Hl & He). injection Hl as <-. now rewrite Hdel in He.
      * intros l Hl. injection Hl as <-. now rewrite Hdel.
    + split.
      * intros e. split; [discriminate|].
        intros (l & Hl & He). injection Hl as <-. now rewrite Hdel in He.
      * intros l Hl. injection Hl as <-. now rewrite Hdel.
  - split; [reflexivity|]. split.
    + intros e. split; [discriminate|]. intros (l & Hl & _). discriminate Hl.
    + intros l Hl. discriminate Hl.
Qed.

Lemma delLink_missing_link_witness :
  Darwin.delLink (list string) string Scenarios.linkNamed Scenarios.removeLink
    ["lo0"; "en0"] "utun8"
  = (["lo0"; "en0"], None).
Proof.
  apply (proj1 (delLink_missing_link (list string) string Scenarios.linkNamed
                  Scenarios.removeLink ["lo0"; "en0"] "utun8")).
  reflexivity.
Defined.

(** X18: [isIPv6Supported] answers [false] in one case only: [ifconfig] ran
    without error and its output does not contain "inet6".  When
    [ifconfig] cannot be run it answers [true]. *)
Theorem isIPv6Supported_false :
  forall (Host : Type)
         (RunCommand : Host -> list string -> Host * (string * option error))
         (h : Host),
    (snd (Darwin.isIPv6Supported Host RunCommand h) = false
     <-> snd (snd (RunCommand h ["ifconfig"])) = None
         /\ ~ exists before after,
                fst (snd (RunCommand h ["ifconfig"])) = before ++ "inet6" ++ after)
    /\ (snd (snd (RunCommand h ["ifconfig"])) <> None ->
          snd (Darwin.isIPv6Supported Host RunCommand h) = true)
    /\ fst (Darwin.isIPv6Supported Host RunCommand h) = fst (RunCommand h ["ifconfig"]).
Proof.
  intros Host RunCommand h. unfold Darwin.isIPv6Supported.
  destruct (RunCommand h ["ifconfig"]) as [h' [res [e|]]]; simpl.
  - split; [split; [discriminate|intros [H _]; discriminate H]|].
    split; reflexivity.
  - pose proof (Contains_occurs res "inet6") as Hocc.
    destruct (Darwin.Contains res "inet6"); simpl.
    + split; [split; [discriminate|]|split; [congruence|reflexivity]].
      intros [_ Hnot]. exfalso. apply Hnot. now apply Hocc.
    + split; [split; [intros _; split; [reflexivity|]|reflexivity]
             |split; [congruence|reflexivity]].
      intros Hex. apply Hocc in Hex. discriminate Hex.
Qed.

Lemma isIPv6Supported_false_witness :
  snd (Darwin.isIPv6Supported unit
         (fun h _ => (h, ("ifconfig: command not found", Some (errorString "exit status 127"))))
         tt) = true.
Proof.
  refine (proj1 (proj2 (isIPv6Supported_false unit
            (fun h _ => (h, ("ifconfig: command not found",
                             Some (errorString "exit status 127")))) tt)) _).
  discriminate.
Defined.

Example isIPv6Supported_reads_ifconfig :
  snd (Darwin.isIPv6Supported unit
         (fun h _ => (h, ("lo0: flags=8049 inet 127.0.0.1 netmask 0xff000000", None))) tt)
    = false
  /\ snd (Darwin.isIPv6Supported unit
            (fun h _ => (h, ("lo0: flags=8049 inet6 ::1 prefixlen 128", None))) tt)
     = true.
Proof. split; reflexivity. Qed.

(** ** More on the deployment pass *)

(** X19: the two preliminary steps of [DeployWireguardConfig] are the only
    source of failure.  The pass returns an error exactly when the
    interface has to be rebuilt and [setupInterface] fails, or, that step
    not failing, when the security group is applied and fails; the peer
    loops never fail it.  When [setupInterface] fails it is the only call
    of the pass.  [setupInterface] is not called when the tunnel address
    matches the live interface, and [processSecurityGroupRules] is not
    called when the group id is empty or the platform is not Linux. *)
Theorem DeployWireguardConfig_failures :
  forall (h : Nexodus.Host) (ax : Nexodus.Nexodus)
         (newPeers : list Nexodus.public.ModelsDevice) (firstTime : bool),
    let run := Nexodus.DeployWireguardConfig h ax newPeers firstTime in
    let rebuild :=
      Nexodus.TunnelIP ax <> Nexodus.getIPv4Iface_String h (Nexodus.tunnelIface ax) in
    let policy := Nexodus.securityGroup_Id ax <> "" /\ Nexodus.GOOS h = "linux" in
    (forall e, Nexodus.result run = Some e <->
       (rebuild /\ Nexodus.setupInterface_err h = Some e)
       \/ ((rebuild -> Nexodus.setupInterface_err h = None)
           /\ policy /\ Nexodus.processSecurityGroupRules_err h = Some e))
    /\ (forall e, rebuild -> Nexodus.setupInterface_err h = Some e ->
          run = ([Nexodus.setupInterface], Some e))
    /\ (~ rebuild -> ~ In Nexodus.setupInterface (Nexodus.trace run))
    /\ (~ policy -> ~ In Nexodus.processSecurityGroupRules (Nexodus.trace run)).
Proof.
  intros h ax newPeers firstTime. cbv zeta.
  rewrite DeployWireguardConfig_run. cbv zeta.
  set (peerCalls := if firstTime then _ else _).
  assert (Hpeers : forall c, In c peerCalls -> Nexodus.installedPeer c <> None).
  { intros c Hc. subst peerCalls. destruct firstTime.
    - apply in_flat_map in Hc. destruct Hc as (p & _ & Hc).
      rewrite (installedPeer_installPeer ax p c Hc). discriminate.
    - apply in_flat_map in Hc. destruct Hc as (d & _ & Hc).
      destruct (negb _); [|contradiction].
      apply in_flat_map in Hc. destruct Hc as (p & _ & Hc).
      destruct (_ && _); [|contradiction].
      rewrite (installedPeer_installPeer ax p c Hc). discriminate. }
  assert (Hsetup : ~ In Nexodus.setupInterface peerCalls).
  { intros Hc. now apply (Hpeers _ Hc). }
  assert (Hgroup : ~ In Nexodus.processSecurityGroupRules peerCalls).
  { intros Hc. now apply (Hpeers _ Hc). }
  clearbody peerCalls. clear Hpeers.
  destruct (String.eqb_spec (Nexodus.TunnelIP ax)
              (Nexodus.getIPv4Iface_String h (Nexodus.tunnelIface ax))) as [Haddr|Haddr];
    destruct (String.eqb_spec (Nexodus.securityGroup_Id ax) "") as [Hid|Hid];
    destruct (String.eqb_spec (Nexodus.GOOS h) "linux") as [Hos|Hos];
    simpl;
    destruct (Nexodus.setupInterface_err h) as [e1|];
    destruct (Nexodus.processSecurityGroupRules_err h) as [e2|];
    unfold Nexodus.result, Nexodus.trace; simpl;
    (split; [intros e; split; [intros He; injection He as <- || discriminate He; tauto
                              |intros [[Hr He]|(Hr & [Hp1 Hp2] & He)];
                               try congruence; try tauto;
                               try (specialize (Hr Haddr); congruence)]|]);
    (split; [intros e Hr He; try congruence; try tauto|]);
    (split; [intros Hr Hin; try tauto;
             repeat (destruct Hin as [Hin|Hin]; [discriminate Hin|]); tauto|]);
    intros Hp Hin; try tauto;
    repeat (destruct Hin as [Hin|Hin]; [discriminate Hin|]); tauto.
Qed.

Lemma DeployWireguardConfig_failures_witness :
  Nexodus.DeployWireguardConfig Scenarios.brokenHost
    (Scenarios.node [Scenarios.peerA] "sg-1")
    [Scenarios.deviceOf "device-a" Scenarios.peerA] true
  = ([Nexodus.setupInterface], Some (errorString "failed to create the interface")).
Proof.
  pose proof (DeployWireguardConfig_failures Scenarios.brokenHost
                (Scenarios.node [Scenarios.peerA] "sg-1")
                [Scenarios.deviceOf "device-a" Scenarios.peerA] true) as H.
  cbv zeta in H. destruct H as (_ & H & _). apply H.
  - discriminate.
  - reflexivity.
Defined.

(** X20: every pass installs peers in pairs and only from the cache: after
    the preliminary steps, the calls of [DeployWireguardConfig] are, for a
    list of cached peers, the route call of each peer followed at once by
    its tunnel call.  No route is installed without its tunnel, no tunnel
    without its route, and none for a peer outside the cached
    configuration. *)
Theorem DeployWireguardConfig_route_tunnel_pairs :
  forall (h : Nexodus.Host) (ax : Nexodus.Nexodus)
         (newPeers : list Nexodus.public.ModelsDevice) (firstTime : bool),
    exists (steps : list Nexodus.Call) (peers : list Nexodus.wgPeerConfig),
      Nexodus.trace (Nexodus.DeployWireguardConfig h ax newPeers firstTime)
        = (steps ++ flat_map (Nexodus.installPeer ax) peers)%list
      /\ Forall (fun c => Nexodus.installedPeer c = None) steps
      /\ Forall (fun p => In p (Nexodus.wgConfig_Peers ax)) peers.
Proof.
  intros h ax newPeers firstTime.
  rewrite DeployWireguardConfig_run. cbv zeta.
  set (peerCalls := if firstTime then _ else _).
  assert (Hpairs : exists peers,
            peerCalls = flat_map (Nexodus.installPeer ax) peers
            /\ Forall (fun p => In p (Nexodus.wgConfig_Peers ax)) peers).
  { subst peerCalls. destruct firstTime.
    - exists (Nexodus.wgConfig_Peers ax). split; [reflexivity|].
      now apply List.Forall_forall.
    - induction newPeers as [|d rest (peers & Heq & Hall)]; simpl.
      + exists []. split; [reflexivity|constructor].
      + rewrite Heq.
        assert (Hinner : forall cache,
                  (forall p, In p cache -> In p (Nexodus.wgConfig_Peers ax)) ->
                  exists matched,
                    flat_map (fun peer =>
                      if String.eqb (Nexodus.PublicKey peer) (Nexodus.public.PublicKey d)
                         && negb (String.eqb (Nexodus.public.PublicKey d)
                                             (Nexodus.wireguardPubKey ax))
                      then Nexodus.installPeer ax peer else []) cache
                    = flat_map (Nexodus.installPeer ax) matched
                    /\ Forall (fun p => In p (Nexodus.wgConfig_Peers ax)) matched).
        { induction cache as [|p cache IH]; intros Hsub; simpl.
          - exists []. split; [reflexivity|constructor].
          - destruct IH as (matched & Hm & Hin); [intros q Hq; apply Hsub; now right|].
            destruct (_ && _).
            + exists (p :: matched). simpl. rewrite Hm. split; [reflexivity|].
              constructor; [apply Hsub; now left|exact Hin].
            + exists matched. now split. }
        destruct (negb (String.eqb (Nexodus.public.Id d) "")).
        * destruct (Hinner (Nexodus.wgConfig_Peers ax) (fun p Hp => Hp))
            as (matched & Hm & Hin).
          exists (matched ++ peers)%list. rewrite Hm, flat_map_app.
          split; [reflexivity|]. apply Forall_app. now split.
        * exists peers. now split. }
  destruct Hpairs as (peers & -> & Hall).
  set (rebuild := negb (String.eqb (Nexodus.TunnelIP ax) _)).
  set (policy := negb (String.eqb (Nexodus.securityGroup_Id ax) "") && _).
  assert (Hic : Forall (fun c => Nexodus.installedPeer c = None)
                  (if rebuild then [Nexodus.setupInterface] else [])).
  { destruct rebuild; repeat constructor. }
  assert (Hpc : Forall (fun c => Nexodus.installedPeer c = None)
                  (if policy then [Nexodus.processSecurityGroupRules] else [])).
  { destruct policy; repeat constructor. }
  destruct (if rebuild then Nexodus.setupInterface_err h else None) as [e1|].
  - exists (if rebuild then [Nexodus.setupInterface] else []), [].
    unfold Nexodus.trace. simpl. rewrite app_nil_r. repeat split; auto.
  - destruct (if policy then Nexodus.processSecurityGroupRules_err h else None) as [e2|].
    + exists ((if rebuild then [Nexodus.setupInterface] else [])
              ++ (if policy then [Nexodus.processSecurityGroupRules] else []))%list, [].
      unfold Nexodus.trace. simpl. rewrite app_nil_r.
      split; [reflexivity|]. split; [apply Forall_app; now split|constructor].
    + exists ((if rebuild then [Nexodus.setupInterface] else [])
              ++ (if policy then [Nexodus.processSecurityGroupRules] else []))%list, peers.
      unfold Nexodus.trace. simpl. rewrite <- app_assoc.
      split; [reflexivity|]. split; [apply Forall_app; now split|exact Hall].
Qed.

(** X21: on a later cycle only some entries of the new list count: an entry
    with an empty id, an entry with the local node's own key, and an entry
    whose key no cached peer has, change nothing.  The pass does the same
    with such entries removed from the list. *)
Theorem DeployWireguardConfig_relevant_entries :
  forall (h : Nexodus.Host) (ax : Nexodus.Nexodus)
         (newPeers : list Nexodus.public.ModelsDevice),
    Nexodus.DeployWireguardConfig h ax newPeers false
    = Nexodus.DeployWireguardConfig h ax
        (List.filter
           (fun d =>
              negb (String.eqb (Nexodus.public.Id d) "")
              && negb (String.eqb (Nexodus.public.PublicKey d) (Nexodus.wireguardPubKey ax))
              && existsb (fun p => String.eqb (Nexodus.PublicKey p)
                                              (Nexodus.public.PublicKey d))
                         (Nexodus.wgConfig_Peers ax))
           newPeers)
        false.
Proof.
  intros h ax newPeers. rewrite !DeployWireguardConfig_run. cbv zeta.
  assert (Hnone : forall (key : string) (cache : list Nexodus.wgPeerConfig),
            negb (String.eqb key (Nexodus.wireguardPubKey ax))
            && existsb (fun p => String.eqb (Nexodus.PublicKey p) key) cache = false ->
            flat_map (fun peer =>
              if String.eqb (Nexodus.PublicKey peer) key
                 && negb (String.eqb key (Nexodus.wireguardPubKey ax))
              then Nexodus.installPeer ax peer else []) cache = []).
  { intros key cache. induction cache as [|p cache IH]; simpl; [reflexivity|].
    destruct (String.eqb (Nexodus.PublicKey p) key);
      destruct (negb (String.eqb key (Nexodus.wireguardPubKey ax))); simpl;
      try discriminate; intros H; now rewrite IH. }
  assert (Hloop :
    flat_map (fun newPeer =>
      if negb (String.eqb (Nexodus.public.Id newPeer) "")
      then flat_map (fun peer =>
             if String.eqb (Nexodus.PublicKey peer) (Nexodus.public.PublicKey newPeer)
                && negb (String.eqb (Nexodus.public.PublicKey newPeer)
                                    (Nexodus.wireguardPubKey ax))
             then Nexodus.installPeer ax peer else []) (Nexodus.wgConfig_Peers ax)
      else []) newPeers
    = flat_map (fun newPeer =>
      if negb (String.eqb (Nexodus.public.Id newPeer) "")
      then flat_map (fun peer =>
             if String.eqb (Nexodus.PublicKey peer) (Nexodus.public.PublicKey newPeer)
                && negb (String.eqb (Nexodus.public.PublicKey newPeer)
                                    (Nexodus.wireguardPubKey ax))
             then Nexodus.installPeer ax peer else []) (Nexodus.wgConfig_Peers ax)
      else [])
      (List.filter
         (fun d =>
            negb (String.eqb (Nexodus.public.Id d) "")
            && negb (String.eqb (Nexodus.public.PublicKey d) (Nexodus.wireguardPubKey ax))
            && existsb (fun p => String.eqb (Nexodus.PublicKey p)
                                            (Nexodus.public.PublicKey d))
                       (Nexodus.wgConfig_Peers ax))
         newPeers)).
  { induction newPeers as [|d rest IH]; simpl; [reflexivity|].
    destruct (negb (String.eqb (Nexodus.public.Id d) "")) eqn:Hid; simpl.
    - destruct (negb (String.eqb (Nexodus.public.PublicKey d) (Nexodus.wireguardPubKey ax))
                && existsb (fun p => String.eqb (Nexodus.PublicKey p)
                                                (Nexodus.public.PublicKey d))
                           (Nexodus.wgConfig_Peers ax)) eqn:Hrel; simpl.
      + rewrite Hid. now rewrite IH.
      + rewrite (Hnone _ _ Hrel). exact IH.
    - exact IH. }
  now rewrite Hloop.
Qed.

(** A list with an entry without id, the node's own entry and an unknown
    peer beside [peerA] installs [peerA] only. *)
Example later_cycle_relevant_entries :
  Nexodus.DeployWireguardConfig Scenarios.linuxHost
    (Scenarios.node [Scenarios.ownPeer; Scenarios.peerA] "")
    [Scenarios.deviceOf "" Scenarios.peerA;
     Scenarios.deviceOf "device-0" Scenarios.ownPeer;
     Scenarios.deviceOf "device-b" Scenarios.peerB;
     Scenarios.deviceOf "device-a" Scenarios.peerA] false
  = Nexodus.DeployWireguardConfig Scenarios.linuxHost
      (Scenarios.node [Scenarios.ownPeer; Scenarios.peerA] "")
      [Scenarios.deviceOf "device-a" Scenarios.peerA] false.
Proof. reflexivity. Qed.

(** ** More on the exit-node origin tracker *)

Section OriginUpdateFacts.

Import Nexodus.

Lemma setEndpoint_same (peer : wgPeerConfig) : setEndpoint (Endpoint peer) peer = peer.
Proof. now destruct peer. Qed.

Lemma updateExitNodeOrigins_origins (nx : Nexodus) (newPeer : wgPeerConfig) :
  exitNodeOrigins (exitNodeState (updateExitNodeOrigins nx newPeer))
  = updatedOrigins (exitNodeOrigins (exitNodeState nx)) newPeer.
Proof.
  unfold updateExitNodeOrigins, updatedOrigins.
  now destruct (rangeExitNodeOrigins (exitNodeOrigins (exitNodeState nx)) newPeer).
Qed.

Lemma updateExitNodeOrigins_record (nx : Nexodus) (newPeer : wgPeerConfig) :
  updateExitNodeOrigins nx newPeer
  = {| wgConfig_Peers := wgConfig_Peers nx;
       TunnelIP := TunnelIP nx;
       tunnelIface := tunnelIface nx;
       securityGroup_Id := securityGroup_Id nx;
       wireguardPubKey := wireguardPubKey nx;
       userspaceMode := userspaceMode nx;
       exitNodeState :=
         {| exitNodeExists := true;
            exitNodeOrigins :=
              updatedOrigins (exitNodeOrigins (exitNodeState nx)) newPeer |} |}.
Proof.
  unfold updateExitNodeOrigins, updatedOrigins.
  now destruct (rangeExitNodeOrigins (exitNodeOrigins (exitNodeState nx)) newPeer).
Qed.

Lemma updatedOrigins_cons (x : wgPeerConfig) (rest : list wgPeerConfig)
  (newPeer : wgPeerConfig) :
  updatedOrigins (x :: rest) newPeer
  = if String.eqb (PublicKey x) (PublicKey newPeer)
    then setEndpoint (Endpoint newPeer) x :: rest
    else x :: updatedOrigins rest newPeer.
Proof.
  unfold updatedOrigins. simpl.
  destruct (String.eqb (PublicKey x) (PublicKey newPeer)); [reflexivity|].
  destruct (rangeExitNodeOrigins rest newPeer) as [l found]. now destruct found.
Qed.

Lemma updatedOrigins_twice (origins : list wgPeerConfig) (newPeer : wgPeerConfig) :
  updatedOrigins (updatedOrigins origins newPeer) newPeer
  = updatedOrigins origins newPeer.
Proof.
  induction origins as [|x rest IH].
  - unfold updatedOrigins. simpl. rewrite String.eqb_refl. simpl.
    now rewrite setEndpoint_same.
  - rewrite (updatedOrigins_cons x rest).
    destruct (String.eqb (PublicKey x) (PublicKey newPeer)) eqn:Hkey.
    + rewrite updatedOrigins_cons. simpl. rewrite Hkey. reflexivity.
    + rewrite updatedOrigins_cons, Hkey. now rewrite IH.
Qed.

Lemma updatedOrigins_find (origins : list wgPeerConfig) (newPeer : wgPeerConfig) :
  find (fun p => String.eqb (PublicKey p) (PublicKey newPeer))
       (updatedOrigins origins newPeer)
  = Some match find (fun p => String.eqb (PublicKey p) (PublicKey newPeer)) origins with
         | Some old => setEndpoint (Endpoint newPeer) old
         | None => newPeer
         end.
Proof.
  induction origins as [|x rest IH].
  - unfold updatedOrigins. simpl. now rewrite String.eqb_refl.
  - rewrite updatedOrigins_cons. simpl.
    destruct (String.eqb (PublicKey x) (PublicKey newPeer)) eqn:Hkey; simpl.
    + now rewrite Hkey.
    + now rewrite Hkey.
Qed.

Lemma updatedOrigins_other_keys (origins : list wgPeerConfig) (newPeer : wgPeerConfig)
  (key : string) :
  key <> PublicKey newPeer ->
  List.filter (fun p => String.eqb (PublicKey p) key) (updatedOrigins origins newPeer)
  = List.filter (fun p => String.eqb (PublicKey p) key) origins.
Proof.
  intros Hkey. induction origins as [|x rest IH].
  - unfold updatedOrigins. simpl.
    destruct (String.eqb_spec (PublicKey newPeer) key); [congruence|reflexivity].
  - rewrite updatedOrigins_cons.
    destruct (String.eqb_spec (PublicKey x) (PublicKey newPeer)) as [Hx|Hx]; simpl.
    + destruct (String.eqb_spec (PublicKey x) key); [congruence|reflexivity].
    + now rewrite IH.
Qed.

End OriginUpdateFacts.

(** X22: [updateExitNodeOrigins] is idempotent: reporting the same peer a
    second time changes nothing, whether the first report overwrote an
    endpoint or appended the peer. *)
Theorem updateExitNodeOrigins_idempotent :
  forall (nx : Nexodus.Nexodus) (newPeer : Nexodus.wgPeerConfig),
    Nexodus.updateExitNodeOrigins (Nexodus.updateExitNodeOrigins nx newPeer) newPeer
    = Nexodus.updateExitNodeOrigins nx newPeer.
Proof.
  intros nx newPeer.
  rewrite (updateExitNodeOrigins_record (Nexodus.updateExitNodeOrigins nx newPeer)).
  rewrite !(updateExitNodeOrigins_record nx). simpl.
  now rewrite updatedOrigins_twice.
Qed.

(** X23: the origin set read back by public key.  After
    [updateExitNodeOrigins newPeer] the first entry with the key of
    [newPeer] has the endpoint of [newPeer]: it is the entry that was
    there, with its allowed IPs and keepalive kept (those of [newPeer] are
    dropped), or [newPeer] itself when the key was new.  The entries of
    every other key are the same as before, in the same order. *)
Theorem updateExitNodeOrigins_lookup :
  forall (nx : Nexodus.Nexodus) (newPeer : Nexodus.wgPeerConfig),
    let hasKey := fun key (p : Nexodus.wgPeerConfig) =>
                    String.eqb (Nexodus.PublicKey p) key in
    let origins := Nexodus.exitNodeOrigins (Nexodus.exitNodeState nx) in
    let origins' :=
      Nexodus.exitNodeOrigins
        (Nexodus.exitNodeState (Nexodus.updateExitNodeOrigins nx newPeer)) in
    (exists entry,
       find (hasKey (Nexodus.PublicKey newPeer)) origins' = Some entry
       /\ Nexodus.Endpoint entry = Nexodus.Endpoint newPeer
       /\ match find (hasKey (Nexodus.PublicKey newPeer)) origins with
          | Some old =>
              Nexodus.AllowedIPs entry = Nexodus.AllowedIPs old
              /\ Nexodus.PersistentKeepAlive entry = Nexodus.PersistentKeepAlive old
          | None => entry = newPeer
          end)
    /\ (forall key, key <> Nexodus.PublicKey newPeer ->
          List.filter (hasKey key) origins' = List.filter (hasKey key) origins).
Proof.
  intros nx newPeer. cbv zeta. rewrite updateExitNodeOrigins_origins. split.
  - rewrite updatedOrigins_find. eexists. split; [reflexivity|].
    destruct (find _ _) as [old|]; simpl; auto.
  - intros key Hkey. now apply updatedOrigins_other_keys.
Qed.

Lemma updateExitNodeOrigins_lookup_witness :
  List.filter (fun p => String.eqb (Nexodus.PublicKey p) "pubkeyB")
    (Nexodus.exitNodeOrigins
       (Nexodus.exitNodeState
          (Nexodus.updateExitNodeOrigins
             (Scenarios.exitNodeWith [Scenarios.peerB; Scenarios.peerA])
             Scenarios.peerA_moved)))
  = [Scenarios.peerB].
Proof.
  pose proof (updateExitNodeOrigins_lookup
                (Scenarios.exitNodeWith [Scenarios.peerB; Scenarios.peerA])
                Scenarios.peerA_moved) as H.
  cbv zeta in H. destruct H as (_ & H).
  refine (eq_trans (H "pubkeyB" _) _).
  - discriminate.
  - reflexivity.
Defined.

(** ** The six netfilter helpers *)

(** X24: each of the six exit-node helpers runs exactly one firewall
    command, and that command only adds an object (a table, a chain or a
    rule) of the [inet] family inside the table [nfExitNodeTable].  The
    helper returns nil exactly when the command does, and otherwise returns
    the command's error wrapped, so its cause is kept. *)
Theorem exit_node_helpers_one_add_command :
  forall (Firewall : Type)
         (policyCmd : Firewall -> list string -> Firewall * (string * option error))
         (nfExitNodeTable wgIface phyIface : string)
         (helper : Nexodus.Journal * Firewall -> (Nexodus.Journal * Firewall) * option error),
    In helper
       [ Nexodus.addExitDestinationTable _ (Nexodus.recording policyCmd) nfExitNodeTable;
         Nexodus.addExitOriginPreroutingChain _ (Nexodus.recording policyCmd) nfExitNodeTable;
         Nexodus.addExitOriginPostroutingChain _ (Nexodus.recording policyCmd) nfExitNodeTable;
         Nexodus.addExitOriginForwardChain _ (Nexodus.recording policyCmd) nfExitNodeTable;
         (fun st => Nexodus.addExitOriginPostroutingRule _ (Nexodus.recording policyCmd)
                      nfExitNodeTable st phyIface);
         Nexodus.addExitOriginForwardRule _ (Nexodus.recording policyCmd)
           nfExitNodeTable wgIface ] ->
    forall (j : Nexodus.Journal) (fw : Firewall),
    exists (kind : string) (rest : list string) (r : option error),
      fst (fst (helper (j, fw)))
        = (j ++ [("add" :: kind :: "inet" :: nfExitNodeTable :: rest, r)])%list
      /\ In kind ["table"; "chain"; "rule"]
      /\ snd (fst (helper (j, fw)))
         = fst (policyCmd fw ("add" :: kind :: "inet" :: nfExitNodeTable :: rest))
      /\ r = snd (snd (policyCmd fw ("add" :: kind :: "inet" :: nfExitNodeTable :: rest)))
      /\ (snd (helper (j, fw)) = None <-> r = None)
      /\ (forall e, r = Some e ->
            exists pre, snd (helper (j, fw)) = Some (wrapError pre e)
                        /\ rootCause (wrapError pre e) = rootCause e).
Proof.
  intros Firewall policyCmd table wg phy helper Hin j fw.
  assert (Hstep : forall kind rest pre,
            In kind ["table"; "chain"; "rule"] ->
            helper = (fun st => Nexodus.policyStep _ (Nexodus.recording policyCmd) st
                                  ("add" :: kind :: "inet" :: table :: rest) pre) ->
            exists (kind : string) (rest : list string) (r : option error),
              fst (fst (helper (j, fw)))
                = (j ++ [("add" :: kind :: "inet" :: table :: rest, r)])%list
              /\ In kind ["table"; "chain"; "rule"]
              /\ snd (fst (helper (j, fw)))
                 = fst (policyCmd fw ("add" :: kind :: "inet" :: table :: rest))
              /\ r = snd (snd (policyCmd fw ("add" :: kind :: "inet" :: table :: rest)))
              /\ (snd (helper (j, fw)) = None <-> r = None)
              /\ (forall e, r = Some e ->
                    exists pre, snd (helper (j, fw)) = Some (wrapError pre e)
                                /\ rootCause (wrapError pre e) = rootCause e)).
  { intros kind rest pre Hkind ->. exists kind, rest.
    unfold Nexodus.policyStep, Nexodus.recording. simpl.
    destruct (policyCmd fw ("add" :: kind :: "inet" :: table :: rest))
      as [fw' [out [e|]]]; simpl.
    - exists (Some e). repeat split; auto; try discriminate.
      intros e0 He0. injection He0 as <-. now exists pre.
    - exists None. repeat split; auto. intros e0 He0. discriminate He0. }
  simpl in Hin.
  destruct Hin as [<-|[<-|[<-|[<-|[<-|[<-|[]]]]]]].
  - eapply Hstep; [|reflexivity]. simpl. auto.
  - eapply Hstep; [|reflexivity]. simpl. auto.
  - eapply Hstep; [|reflexivity]. simpl. auto.
  - eapply Hstep; [|reflexivity]. simpl. auto.
  - eapply Hstep; [|reflexivity]. simpl. auto.
  - eapply Hstep; [|reflexivity]. simpl. auto.
Qed.

Lemma exit_node_helpers_one_add_command_witness :
  exists (kind : string) (rest : list string) (r : option error),
    fst (fst (Nexodus.addExitOriginForwardRule _
                (Nexodus.recording (Scenarios.nftFailingAt 0))
                "nexodus-exit-node" "wg0" ([], 0)))
      = ([] ++ [("add" :: kind :: "inet" :: "nexodus-exit-node" :: rest, r)])%list
    /\ In kind ["table"; "chain"; "rule"]
    /\ snd (fst (Nexodus.addExitOriginForwardRule _
                   (Nexodus.recording (Scenarios.nftFailingAt 0))
                   "nexodus-exit-node" "wg0" ([], 0)))
       = fst (Scenarios.nftFailingAt 0 0
                ("add" :: kind :: "inet" :: "nexodus-exit-node" :: rest))
    /\ r = snd (snd (Scenarios.nftFailingAt 0 0
                       ("add" :: kind :: "inet" :: "nexodus-exit-node" :: rest)))
    /\ (snd (Nexodus.addExitOriginForwardRule _
               (Nexodus.recording (Scenarios.nftFailingAt 0))
               "nexodus-exit-node" "wg0" ([], 0)) = None <-> r = None)
    /\ (forall e, r = Some e ->
          exists pre,
            snd (Nexodus.addExitOriginForwardRule _
                   (Nexodus.recording (Scenarios.nftFailingAt 0))
                   "nexodus-exit-node" "wg0" ([], 0)) = Some (wrapError pre e)
            /\ rootCause (wrapError pre e) = rootCause e).
Proof.
  apply (exit_node_helpers_one_add_command nat (Scenarios.nftFailingAt 0)
           "nexodus-exit-node" "wg0" "eth0"
           (Nexodus.addExitOriginForwardRule _
              (Nexodus.recording (Scenarios.nftFailingAt 0)) "nexodus-exit-node" "wg0")).
  simpl. do 5 right. left. reflexivity.
Defined.
